(** * Prediction-and-decision engine of [demo_predicao_diabetes.py]

    A shallow embedding of [interpretar_risco] and [predizer_diabetes], and
    of the functions around them: [carregar_sistema_predicao],
    [exibir_resultado], [demonstracao_casos_clinicos], [comparar_thresholds]
    and [menu_interativo].

    - Python floats (and NumPy's [float64]) are IEEE 754 binary64 numbers:
      they are Rocq's primitive [float], with the same rounding
      (to nearest, ties to even) and the same comparisons.
    - The dictionary of thresholds is a [gmap string float].
    - The fitted scaler and classifier are external objects.  Their methods
      may raise and may touch state of their own, so they are operations of
      a small state-and-exception monad over an abstract [World].
    - [print] appends a line to the standard output, kept in the world;
      Python's formatting of numbers, the file system, joblib and the
      terminal are parameters of the functions that use them.  *)

From Stdlib Require Import ZArith Lia Bool Floats Ascii.
From stdpp Require Import gmap strings list fin_maps pretty.

Set Warnings "-inexact-float".

Local Open Scope string_scope.

(** ** Floating-point comparisons in Python's spelling *)

Module FloatCmp.
(** [x >= y] and [x > y] are [y <= x] and [y < x] of IEEE 754. *)
Definition geb (x y : float) : bool := PrimFloat.leb y x.
Definition gtb (x y : float) : bool := PrimFloat.ltb y x.
End FloatCmp.

Notation "x >=? y" := (FloatCmp.geb x y) (at level 70, no associativity) : float_scope.
Notation "x >? y" := (FloatCmp.gtb x y) (at level 70, no associativity) : float_scope.

(** ** Exceptions, and the monad of the external calls *)

Inductive exception : Type :=
| SchemaError                (* the data frame rejects the row *)
| IndexError                 (* [a[0][1]] out of bounds *)
| Raised (cls : string)      (* anything raised inside the scaler or model *).

Section Monad.
Context {World : Type}.

Definition M (A : Type) : Type := World -> (exception + A) * World.

Definition ret {A} (a : A) : M A := fun w => (inr a, w).

Definition raise {A} (e : exception) : M A := fun w => (inl e, w).

Definition bind {A B} (m : M A) (k : A -> M B) : M B :=
  fun w =>
    match m w with
    | (inl e, w') => (inl e, w')
    | (inr a, w') => k a w'
    end.

Definition lift {A} (r : exception + A) : M A := fun w => (r, w).
End Monad.

Arguments M : clear implicits.

Notation "'let*' x ':=' m 'in' k" := (bind m (fun x => k))
  (at level 10, x pattern, m at level 100, k at level 200).

(** ** Data *)

(** One-row-at-a-time view of a [pandas.DataFrame]: column labels and rows. *)
Record DataFrame : Type := {
  columns : list string;
  values : list (list float)
}.

(** Modelled from the spec: the constructor [pd.DataFrame] belongs to pandas
    and is not part of the sources.  Section 4.2, step 2: the row is bound
    positionally to the feature names; "vector length equals
    [len(feature_names)]; violation is a structural error (fails with
    [SchemaError])".  (pandas reports it as a [ValueError].) *)
Definition pd_DataFrame (data : list (list float)) (cols : list string)
  : exception + DataFrame :=
  if forallb (fun row => Nat.eqb (length row) (length cols)) data
  then inr {| columns := cols; values := data |}
  else inl SchemaError.

(** The fitted objects loaded by [carregar_sistema_predicao]. *)
Record Scaler (World : Type) : Type := {
  transform : DataFrame -> M World (list (list float))
}.

Record Modelo (World : Type) : Type := {
  predict_proba : list (list float) -> M World (list (list float))
}.

Arguments transform {World}.
Arguments predict_proba {World}.

(** The dictionary returned by [predizer_diabetes]. *)
Record resultado : Type := {
  predicao : string;
  probabilidade : float;
  nivel_risco : string;
  descricao_risco : string;
  threshold_usado : float;
  contexto : string;
  confianca : string
}.

(** ** [interpretar_risco] *)

Definition interpretar_risco (probabilidade : float) : string * string :=
  if (probabilidade >=? 0.8)%float then
    ("🔴 MUITO ALTO", "Forte indicação de diabetes - Investigação urgente")
  else if (probabilidade >=? 0.6)%float then
    ("🟠 ALTO", "Risco elevado - Exames complementares recomendados")
  else if (probabilidade >=? 0.4)%float then
    ("🟡 MODERADO", "Risco moderado - Monitoramento regular")
  else if (probabilidade >=? 0.2)%float then
    ("🟢 BAIXO", "Risco baixo - Prevenção e estilo de vida saudável")
  else
    ("💚 MUITO BAIXO", "Risco muito baixo - Manter hábitos saudáveis").

(** ** [predizer_diabetes] *)

(** [a[i][j]] on a two-dimensional array. *)
Definition index2 {World} (a : list (list float)) (i j : nat) : M World float :=
  match a !! i with
  | Some row =>
      match row !! j with
      | Some x => ret x
      | None => raise IndexError
      end
  | None => raise IndexError
  end.

Definition thresholds_contexto : gmap string float :=
  <["triagem" := 0.35%float]>
  (<["consulta_medica" := 0.45%float]>
  (<["preventiva" := 0.60%float]> ∅)).

(** The keyword arguments [threshold] and [contexto] are optional:
    [None] is a call that leaves the argument out. *)
Definition predizer_diabetes {World}
    (dados_paciente : list float) (modelo : Modelo World) (scaler : Scaler World)
    (feature_columns : list string)
    (threshold : option float) (contexto : option string) : M World resultado :=
  let threshold := default 0.45%float threshold in
  let contexto := default "consulta_medica" contexto in
  let threshold :=
    match thresholds_contexto !! contexto with
    | Some t => t
    | None => threshold
    end in
  let* dados_df := lift (pd_DataFrame [dados_paciente] feature_columns) in
  let* dados_normalizados := transform scaler dados_df in
  let* proba := predict_proba modelo dados_normalizados in
  let* probabilidade := index2 proba 0 1 in
  let predicao := if (probabilidade >=? threshold)%float then 1%Z else 0%Z in
  let '(nivel_risco, descricao_risco) := interpretar_risco probabilidade in
  ret {| predicao := if (predicao =? 1)%Z then "DIABETES" else "NÃO-DIABETES";
         probabilidade := probabilidade;
         nivel_risco := nivel_risco;
         descricao_risco := descricao_risco;
         threshold_usado := threshold;
         contexto := contexto;
         confianca := if (abs (probabilidade - 0.5) >? 0.3)%float
                      then "Alta" else "Moderada" |}.

(** ** The two halves of [predizer_diabetes]

    The body first obtains the probability from the external objects and
    then builds the dictionary from it; [predizer_diabetes_split] below
    shows that the function is exactly their composition. *)

Definition probabilidade_de {World}
    (dados_paciente : list float) (modelo : Modelo World) (scaler : Scaler World)
    (feature_columns : list string) : M World float :=
  let* dados_df := lift (pd_DataFrame [dados_paciente] feature_columns) in
  let* dados_normalizados := transform scaler dados_df in
  let* proba := predict_proba modelo dados_normalizados in
  index2 proba 0 1.

Definition limiar (threshold : option float) (contexto : option string) : float :=
  match thresholds_contexto !! default "consulta_medica" contexto with
  | Some t => t
  | None => default 0.45%float threshold
  end.

Definition registro (threshold : option float) (contexto : option string)
    (p : float) : resultado :=
  {| predicao := if (p >=? limiar threshold contexto)%float
                 then "DIABETES" else "NÃO-DIABETES";
     probabilidade := p;
     nivel_risco := (interpretar_risco p).1;
     descricao_risco := (interpretar_risco p).2;
     threshold_usado := limiar threshold contexto;
     contexto := default "consulta_medica" contexto;
     confianca := if (abs (p - 0.5) >? 0.3)%float then "Alta" else "Moderada" |}.

(** The five pairs [interpretar_risco] can return. *)
Definition muito_alto : string * string :=
  ("🔴 MUITO ALTO", "Forte indicação de diabetes - Investigação urgente").
Definition alto : string * string :=
  ("🟠 ALTO", "Risco elevado - Exames complementares recomendados").
Definition moderado : string * string :=
  ("🟡 MODERADO", "Risco moderado - Monitoramento regular").
Definition baixo : string * string :=
  ("🟢 BAIXO", "Risco baixo - Prevenção e estilo de vida saudável").
Definition muito_baixo : string * string :=
  ("💚 MUITO BAIXO", "Risco muito baixo - Manter hábitos saudáveis").

Definition niveis : list (string * string) :=
  [muito_alto; alto; moderado; baixo; muito_baixo].

(** ** Properties of calls and of pairs of results *)

(** An external method is pure when its outcome is a function of its
    argument alone and it leaves the world as it found it. *)
Definition pure_call {World A B} (f : A -> M World B) : Prop :=
  forall a w1 w2, (f a w1).1 = (f a w2).1 /\ (f a w1).2 = w1.

(** The four fields that measure the risk. *)
Definition same_magnitude (r1 r2 : resultado) : Prop :=
  probabilidade r1 = probabilidade r2
  /\ nivel_risco r1 = nivel_risco r2
  /\ descricao_risco r1 = descricao_risco r2
  /\ confianca r1 = confianca r2.

(** Every field but [predicao] and [threshold_usado]. *)
Definition same_but_label_and_threshold (r1 r2 : resultado) : Prop :=
  same_magnitude r1 r2 /\ contexto r1 = contexto r2.

(** ** Fixtures: the patients of [demonstracao_casos_clinicos] and stand-ins
    for the fitted objects *)

Definition feature_columns_pima : list string :=
  ["Pregnancies"; "Glucose"; "BloodPressure"; "SkinThickness";
   "Insulin"; "BMI"; "DiabetesPedigreeFunction"; "Age"].

Definition paciente_B : list float :=
  [2; 110; 75; 25; 100; 28.5; 0.4; 35]%float.

Definition paciente_C : list float :=
  [4; 160; 85; 30; 150; 35.0; 0.8; 45]%float.

(** [paciente_B] without its last measurement. *)
Definition paciente_curto : list float :=
  [2; 110; 75; 25; 100; 28.5; 0.4]%float.

Definition scaler_identidade {World} : Scaler World :=
  {| transform := fun df => ret (values df) |}.

(** A classifier that answers [p] for every row. *)
Definition modelo_constante {World} (p : float) : Modelo World :=
  {| predict_proba := fun x => ret (map (fun _ => [1 - p; p]%float) x) |}.

(** A classifier with a memory: it counts its calls in the world and
    answers 0.9 on even calls, 0.1 on odd ones. *)
Definition modelo_alternante : Modelo nat :=
  {| predict_proba := fun x n =>
       (inr (map (fun _ => if Nat.even n then [0.1; 0.9]%float
                           else [0.9; 0.1]%float) x), S n) |}.

(** ** Binary64 numbers as ordered keys

    [SFcompare] orders the numbers that are not NaN by sign, then exponent,
    then mantissa.  [key] maps each number to a triple of integers whose
    lexicographic order is that order. *)

Module F64.
Local Open Scope Z_scope.

Definition key (x : spec_float) : option (Z * Z * Z) :=
  match x with
  | S754_nan => None
  | S754_infinity true => Some (-2, 0, 0)
  | S754_finite true m e => Some (-1, - e, - Zpos m)
  | S754_zero _ => Some (0, 0, 0)
  | S754_finite false m e => Some (1, e, Zpos m)
  | S754_infinity false => Some (2, 0, 0)
  end.

Definition fkey (x : float) : option (Z * Z * Z) := key (Prim2SF x).

Definition lex_cmp (a b : Z * Z * Z) : comparison :=
  match a.1.1 ?= b.1.1 with
  | Eq => match a.1.2 ?= b.1.2 with
          | Eq => a.2 ?= b.2
          | c => c
          end
  | c => c
  end.

Definition key_cmp (x y : spec_float) : option comparison :=
  match key x, key y with
  | Some a, Some b => Some (lex_cmp a b)
  | _, _ => None
  end.

Definition lex_leb (a b : Z * Z * Z) : bool :=
  match lex_cmp a b with Gt => false | _ => true end.

Definition lex_ltb (a b : Z * Z * Z) : bool :=
  match lex_cmp a b with Lt => true | _ => false end.

Definition lex_lt (a b : Z * Z * Z) : Prop :=
  a.1.1 < b.1.1 \/
  (a.1.1 = b.1.1 /\ (a.1.2 < b.1.2 \/ (a.1.2 = b.1.2 /\ a.2 < b.2))).

Definition lex_le (a b : Z * Z * Z) : Prop :=
  a.1.1 < b.1.1 \/
  (a.1.1 = b.1.1 /\ (a.1.2 < b.1.2 \/ (a.1.2 = b.1.2 /\ a.2 <= b.2))).

(** The literal [0.5] as sign, mantissa and exponent. *)
Definition c05 : spec_float := Eval vm_compute in Prim2SF 0.5.
End F64.

(** ** Severity of a tier

    The five pairs in the order of the branches of [interpretar_risco],
    from the last ([muito_baixo], 0) to the first ([muito_alto], 4). *)
Definition gravidade (n : string * string) : nat :=
  if decide (n = muito_alto) then 4
  else if decide (n = alto) then 3
  else if decide (n = moderado) then 2
  else if decide (n = baixo) then 1
  else 0.

(** A scaler and a model that raise. *)
Definition scaler_falho {World} (e : exception) : Scaler World :=
  {| transform := fun _ => raise e |}.

Definition modelo_falho {World} (e : exception) : Modelo World :=
  {| predict_proba := fun _ => raise e |}.

(** A classifier whose output has a single column. *)
Definition modelo_uma_coluna {World} (p : float) : Modelo World :=
  {| predict_proba := fun x => ret (map (fun _ => [p]) x) |}.

(** ** Console output

    [print] appends one line to the standard output, which is part of the
    world next to the state of the external objects. *)
Record Console (W : Type) : Type := {
  stdout : list string;
  mundo : W
}.

Arguments stdout {W}.
Arguments mundo {W}.

Definition print {W} (s : string) : M (Console W) unit :=
  fun c => (inr tt, {| stdout := (stdout c ++ [s])%list; mundo := mundo c |}).

(** [for x in l: body(x)] *)
Fixpoint for_each {World A} (l : list A) (body : A -> M World unit) : M World unit :=
  match l with
  | [] => ret tt
  | x :: l' => let* _ := body x in for_each l' body
  end.

(** The newline character, and [s * n]. *)
Definition NL : string := String (Ascii.ascii_of_nat 10) EmptyString.

Fixpoint repetir (s : string) (n : nat) : string :=
  match n with
  | O => ""
  | S n' => s ++ repetir s n'
  end.

(** [s.replace(a, b)] for single characters. *)
Fixpoint replace_char (a b : Ascii.ascii) (s : string) : string :=
  match s with
  | EmptyString => EmptyString
  | String c s' => String (if Ascii.eqb c a then b else c) (replace_char a b s')
  end.

(** Python's formatting of values, which the sources use and do not
    define: [str(x)], the format specifications [.1%], [.2f] and [<n], and
    [str.title]. *)
Record Formato : Type := {
  str_valor : float -> string;
  fmt_pct1 : float -> string;
  fmt_f2 : float -> string;
  ljust : nat -> string -> string;
  str_title : string -> string
}.

(** ** [exibir_resultado] *)

Definition exibir_resultado {W} (fmt : Formato)
    (dados_paciente : list float) (resultado : resultado)
    (feature_columns : list string) : M (Console W) unit :=
  let* _ := print (NL ++ repetir "=" 70) in
  let* _ := print "🩺 RELATÓRIO DE PREDIÇÃO DE DIABETES" in
  let* _ := print (repetir "=" 70) in
  let* _ := print (NL ++ "👤 DADOS DO PACIENTE:") in
  let labels :=
    ["Gestações"; "Glicemia (mg/dL)"; "Pressão Arterial (mmHg)";
     "Espessura da Pele (mm)"; "Insulina (mu U/ml)"; "IMC (kg/m²)";
     "Herança Genética"; "Idade (anos)"] in
  let* _ := for_each (zip labels dados_paciente) (fun '(label, valor) =>
              print ("   " ++ ljust fmt 20 label ++ ": " ++ str_valor fmt valor)) in
  let* _ := print (NL ++ "🔬 RESULTADO DA ANÁLISE:") in
  let* _ := print ("   Predição Final     : " ++ predicao resultado) in
  let* _ := print ("   Probabilidade      : " ++ fmt_pct1 fmt (probabilidade resultado)) in
  let* _ := print ("   Nível de Risco     : " ++ nivel_risco resultado) in
  let* _ := print ("   Contexto Clínico   : "
                   ++ str_title fmt (replace_char "_"%char " "%char (contexto resultado))) in
  let* _ := print ("   Threshold Utilizado: " ++ fmt_f2 fmt (threshold_usado resultado)) in
  let* _ := print ("   Confiança          : " ++ confianca resultado) in
  let* _ := print (NL ++ "💡 INTERPRETAÇÃO CLÍNICA:") in
  let* _ := print ("   " ++ descricao_risco resultado) in
  let* _ := print (NL ++ "📋 RECOMENDAÇÕES:") in
  let* _ :=
    if (probabilidade resultado >=? 0.6)%float then
      let* _ := print "   • Investigação diagnóstica complementar urgente" in
      let* _ := print "   • Teste oral de tolerância à glicose (TOTG)" in
      let* _ := print "   • Hemoglobina glicada (HbA1c)" in
      print "   • Acompanhamento endocrinológico"
    else if (probabilidade resultado >=? 0.4)%float then
      let* _ := print "   • Monitoramento regular da glicemia" in
      let* _ := print "   • Avaliação em 6 meses" in
      let* _ := print "   • Orientação nutricional" in
      print "   • Atividade física regular"
    else
      let* _ := print "   • Manter estilo de vida saudável" in
      let* _ := print "   • Check-up anual de rotina" in
      print "   • Prevenção primária" in
  print (NL ++ repetir "=" 70).

(** The three blocks of recommendations and the closing line, as lists of
    lines. *)
Definition bloco_urgente : list string :=
  ["   • Investigação diagnóstica complementar urgente";
   "   • Teste oral de tolerância à glicose (TOTG)";
   "   • Hemoglobina glicada (HbA1c)";
   "   • Acompanhamento endocrinológico"].

Definition bloco_monitoramento : list string :=
  ["   • Monitoramento regular da glicemia";
   "   • Avaliação em 6 meses";
   "   • Orientação nutricional";
   "   • Atividade física regular"].

Definition bloco_prevencao : list string :=
  ["   • Manter estilo de vida saudável";
   "   • Check-up anual de rotina";
   "   • Prevenção primária"].

(** The report ends with the heading of the recommendations, [bloco] and
    the closing rule. *)
Definition termina_com {W} (bloco : list string) (c : Console W) : Prop :=
  exists pre,
    stdout c
    = (pre ++ (NL ++ "📋 RECOMENDAÇÕES:")%string :: bloco
           ++ [(NL ++ repetir "=" 70)%string])%list.

(** A formatter for the fixtures: it prints nothing of the values. *)
Definition formato_mudo : Formato :=
  {| str_valor := fun _ => ""; fmt_pct1 := fun _ => ""; fmt_f2 := fun _ => "";
     ljust := fun _ s => s; str_title := fun s => s |}.

(** [m] never raises, prints the lines [l] and leaves the rest of the world
    as it was. *)
Definition imprime {W} (m : M (Console W) unit) (l : list string) : Prop :=
  forall c, m c = (inr tt, {| stdout := (stdout c ++ l)%list; mundo := mundo c |}).

(** ** The environment of the demonstrations

    What [carregar_sistema_predicao] takes from Python and joblib:
    [Path(p).exists()], [joblib.load(p)] at the three types the callers
    expect, the test [isinstance(e, Exception)] that decides what
    [except Exception] catches, and [str(e)]. *)
Record Ambiente (W : Type) : Type := {
  path_exists : string -> M (Console W) bool;
  load_modelo : string -> M (Console W) (Modelo (Console W));
  load_scaler : string -> M (Console W) (Scaler (Console W));
  load_colunas : string -> M (Console W) (list string);
  is_Exception : exception -> bool;
  str_exc : exception -> string
}.

Arguments path_exists {W}.
Arguments load_modelo {W}.
Arguments load_scaler {W}.
Arguments load_colunas {W}.
Arguments is_Exception {W}.
Arguments str_exc {W}.

(** [try: m  except <class> as e: h(e)], where [catches] tells the
    exceptions of the class. *)
Definition try_except {World A} (m : M World A) (catches : exception -> bool)
    (h : exception -> M World A) : M World A :=
  fun w =>
    match m w with
    | (inl e, w') => if catches e then h e w' else (inl e, w')
    | (inr a, w') => (inr a, w')
    end.

(** [for x in l: v = body(x)], with the value bound last, if any. *)
Fixpoint for_ultimo {World A B} (l : list A) (body : A -> M World B)
    (ultimo : option B) : M World (option B) :=
  match l with
  | [] => ret ultimo
  | x :: l' => let* v := body x in for_ultimo l' body (Some v)
  end.

(** ** [carregar_sistema_predicao]

    The result [(None, None, None)], of which the callers test the first
    component, is [None]; a loaded system is [Some (modelo, scaler,
    feature_columns)]. *)
Definition carregar_sistema_predicao {W} (amb : Ambiente W)
  : M (Console W) (option (Modelo (Console W) * Scaler (Console W) * list string)) :=
  let* _ := print "🔄 Carregando sistema de predição de diabetes..." in
  let* existe := path_exists amb "todos-modelos" in
  if negb existe then raise (Raised "FileNotFoundError")
  else
    try_except
      (let* modelo_rf := load_modelo amb "todos-modelos/random_forest_model.pkl" in
       let* scaler := load_scaler amb "todos-modelos/scaler.pkl" in
       let* feature_columns := load_colunas amb "todos-modelos/feature_columns.pkl" in
       let* _ := print "✅ Sistema carregado com sucesso!" in
       let* _ := print "   📊 Modelo: Random Forest (melhor AUC)" in
       let* _ := print "   🔧 Scaler: StandardScaler configurado" in
       let* _ := print ("   📝 Features: " ++ pretty (length feature_columns)
                        ++ " variáveis") in
       ret (Some (modelo_rf, scaler, feature_columns)))
      (is_Exception amb)
      (fun e =>
         let* _ := print ("❌ Erro ao carregar sistema: " ++ str_exc amb e) in
         ret None).

(** ** [comparar_thresholds] *)

Definition comparar_thresholds {W} (amb : Ambiente W) (fmt : Formato)
  : M (Console W) unit :=
  let* _ := print (NL ++ "🔄 DEMONSTRAÇÃO: IMPACTO DOS THRESHOLDS") in
  let* _ := print (repetir "=" 60) in
  let* sistema := carregar_sistema_predicao amb in
  match sistema with
  | None => ret tt
  | Some (modelo, scaler, feature_columns) =>
      let dados_limitrofe := [2; 125; 80; 28; 120; 29.0; 0.5; 40]%float in
      let* _ := print (NL ++ "👤 PACIENTE LIMÍTROFE:") in
      let* _ := print "Gestações: 2, Glicemia: 125 mg/dL, IMC: 29.0, Idade: 40 anos" in
      let* _ := print "Perfil: Pré-diabetes, sobrepeso, risco intermediário" in
      let contextos :=
        [("triagem", "Triagem Populacional");
         ("consulta_medica", "Consulta Médica");
         ("preventiva", "Medicina Preventiva")] in
      let* _ := print (NL ++ "📊 RESULTADOS POR CONTEXTO:") in
      let* _ := print (ljust fmt 20 "Contexto" ++ " " ++ ljust fmt 10 "Threshold" ++ " "
                       ++ ljust fmt 12 "Predição" ++ " "
                       ++ ljust fmt 12 "Probabilidade") in
      let* _ := print (repetir "-" 60) in
      let* ultimo :=
        for_ultimo contextos (fun '(contexto, nome) =>
          let* resultado :=
            predizer_diabetes dados_limitrofe modelo scaler feature_columns
              None (Some contexto) in
          let* _ := print (ljust fmt 20 nome ++ " "
                           ++ ljust fmt 10 (fmt_f2 fmt (threshold_usado resultado))
                           ++ " " ++ ljust fmt 12 (predicao resultado) ++ " "
                           ++ ljust fmt 12 (fmt_pct1 fmt (probabilidade resultado))) in
          ret resultado) None in
      match ultimo with
      | None => raise (Raised "UnboundLocalError")
      | Some resultado =>
          let* _ := print (NL ++ "💡 INTERPRETAÇÃO:") in
          let* _ := print ("• Mesma probabilidade ("
                           ++ fmt_pct1 fmt (probabilidade resultado)
                           ++ ") em todos os contextos") in
          let* _ := print "• Diferentes thresholds levam a diferentes decisões" in
          let* _ := print "• Triagem: Mais sensível (detecta mais casos)" in
          print "• Preventiva: Mais específica (evita falsos positivos)"
      end
  end.

(** The patient of [comparar_thresholds] and the lines of its table. *)
Definition dados_limitrofe : list float :=
  [2; 125; 80; 28; 120; 29.0; 0.5; 40]%float.

Definition linha_tabela (fmt : Formato) (nome : string) (r : resultado) : string :=
  ljust fmt 20 nome ++ " " ++ ljust fmt 10 (fmt_f2 fmt (threshold_usado r)) ++ " "
  ++ ljust fmt 12 (predicao r) ++ " " ++ ljust fmt 12 (fmt_pct1 fmt (probabilidade r)).

(** An environment for the fixtures: the folder exists or not, the loads
    return the stand-ins or the model file fails to load. *)
Definition ambiente_de {W} (existe : bool) (falha : option exception) (p : float)
  : Ambiente W :=
  {| path_exists := fun _ => ret existe;
     load_modelo := fun _ =>
       match falha with Some e => raise e | None => ret (modelo_constante p) end;
     load_scaler := fun _ => ret scaler_identidade;
     load_colunas := fun _ => ret feature_columns_pima;
     is_Exception := fun e =>
       match e with
       | Raised "KeyboardInterrupt" | Raised "SystemExit" => false
       | _ => true
       end;
     str_exc := fun _ => "" |}.

(** ** [demonstracao_casos_clinicos] *)

Record Caso : Type := {
  caso_nome : string;
  caso_dados : list float;
  caso_contexto : string;
  caso_descricao : string
}.

Definition casos_clinicos : list Caso :=
  [ {| caso_nome := "Paciente A - Risco Baixo";
       caso_dados := [0; 85; 65; 20; 80; 22.0; 0.2; 25]%float;
       caso_contexto := "consulta_medica";
       caso_descricao := "Jovem, sem gestações, glicemia normal, IMC normal" |};
    {| caso_nome := "Paciente B - Risco Moderado";
       caso_dados := [2; 110; 75; 25; 100; 28.5; 0.4; 35]%float;
       caso_contexto := "consulta_medica";
       caso_descricao := "Adulta, pré-diabetes, sobrepeso, fatores de risco" |};
    {| caso_nome := "Paciente C - Risco Alto";
       caso_dados := [4; 160; 85; 30; 150; 35.0; 0.8; 45]%float;
       caso_contexto := "triagem";
       caso_descricao := "Múltiplas gestações, hiperglicemia, obesidade" |};
    {| caso_nome := "Paciente D - Idosa com Fatores";
       caso_dados := [6; 140; 90; 35; 200; 32.0; 1.2; 65]%float;
       caso_contexto := "preventiva";
       caso_descricao := "Idosa, múltiplas gestações, histórico familiar" |} ].

Definition demonstracao_casos_clinicos {W} (amb : Ambiente W) (fmt : Formato)
  : M (Console W) unit :=
  let* _ := print (NL ++ "🎯 DEMONSTRAÇÃO: CASOS CLÍNICOS VARIADOS") in
  let* _ := print (repetir "=" 80) in
  let* sistema := carregar_sistema_predicao amb in
  match sistema with
  | None => ret tt
  | Some (modelo, scaler, feature_columns) =>
      let* _ :=
        for_each (zip (seq 1 (length casos_clinicos)) casos_clinicos)
          (fun '(i, caso) =>
             let* _ := print (NL ++ "📋 CASO " ++ pretty i ++ ": " ++ caso_nome caso) in
             let* _ := print ("Descrição: " ++ caso_descricao caso) in
             let* resultado :=
               predizer_diabetes (caso_dados caso) modelo scaler feature_columns
                 None (Some (caso_contexto caso)) in
             let* _ := print ("Resultado: " ++ predicao resultado ++ " ("
                              ++ fmt_pct1 fmt (probabilidade resultado) ++ ") - "
                              ++ nivel_risco resultado) in
             print ("Contexto: "
                    ++ str_title fmt (replace_char "_"%char " "%char (caso_contexto caso))
                    ++ " (threshold: " ++ fmt_f2 fmt (threshold_usado resultado)
                    ++ ")")) in
      let* _ := print (NL ++ "🔍 ANÁLISE DETALHADA - CASO 2 (Risco Moderado):") in
      match casos_clinicos !! 1%nat with
      | None => raise IndexError
      | Some caso_detalhado =>
          let* resultado_detalhado :=
            predizer_diabetes (caso_dados caso_detalhado) modelo scaler feature_columns
              None (Some (caso_contexto caso_detalhado)) in
          exibir_resultado fmt (caso_dados caso_detalhado) resultado_detalhado
            feature_columns
      end
  end.

(** The summary line of a case. *)
Definition linha_resumo (fmt : Formato) (r : resultado) : string :=
  "Resultado: " ++ predicao r ++ " (" ++ fmt_pct1 fmt (probabilidade r) ++ ") - "
  ++ nivel_risco r.

(** ** [menu_interativo]

    The terminal: [input(prompt)], the conversions [int(s)] and [float(s)]
    of a line to a number of the vector, and the test
    [isinstance(e, KeyboardInterrupt)]. *)
Record Terminal (W : Type) : Type := {
  input : string -> M (Console W) string;
  to_int : string -> exception + float;
  to_float : string -> exception + float;
  is_KeyboardInterrupt : exception -> bool
}.

Arguments input {W}.
Arguments to_int {W}.
Arguments to_float {W}.
Arguments is_KeyboardInterrupt {W}.

Definition contextos_map : gmap string string :=
  <["1" := "triagem"]> (<["2" := "consulta_medica"]> (<["3" := "preventiva"]> ∅)).

Definition menu_interativo {W} (amb : Ambiente W) (term : Terminal W) (fmt : Formato)
  : M (Console W) unit :=
  let* _ := print (NL ++ "🎮 MODO INTERATIVO - TESTE SEU PRÓPRIO CASO") in
  let* _ := print (repetir "=" 50) in
  let* sistema := carregar_sistema_predicao amb in
  match sistema with
  | None => ret tt
  | Some (modelo, scaler, feature_columns) =>
      try_except
        (let* _ := print (NL ++ "📝 Insira os dados do paciente:") in
         let* s := input term "Número de gestações (0-17): " in
         let* gestacoes := lift (to_int term s) in
         let* s := input term "Glicemia em jejum (mg/dL, ex: 110): " in
         let* glicemia := lift (to_float term s) in
         let* s := input term "Pressão arterial diastólica (mmHg, ex: 80): " in
         let* pressao := lift (to_float term s) in
         let* s := input term "Espessura da pele tricipital (mm, ex: 25): " in
         let* pele := lift (to_float term s) in
         let* s := input term "Insulina sérica (mu U/ml, ex: 100): " in
         let* insulina := lift (to_float term s) in
         let* s := input term "IMC (kg/m², ex: 28.5): " in
         let* imc := lift (to_float term s) in
         let* s := input term "Função de herança genética (0.1-2.5, ex: 0.5): " in
         let* heranca := lift (to_float term s) in
         let* s := input term "Idade (anos, ex: 35): " in
         let* idade := lift (to_int term s) in
         let* _ := print (NL ++ "🏥 Selecione o contexto clínico:") in
         let* _ := print "1. Triagem populacional (threshold 0.35 - máxima detecção)" in
         let* _ := print "2. Consulta médica (threshold 0.45 - equilibrado)" in
         let* _ := print "3. Medicina preventiva (threshold 0.60 - conservador)" in
         let* contexto_num := input term "Escolha (1/2/3): " in
         let contexto := default "consulta_medica" (contextos_map !! contexto_num) in
         let dados_usuario :=
           [gestacoes; glicemia; pressao; pele; insulina; imc; heranca; idade] in
         let* resultado :=
           predizer_diabetes dados_usuario modelo scaler feature_columns
             None (Some contexto) in
         exibir_resultado fmt dados_usuario resultado feature_columns)
        (fun e => is_KeyboardInterrupt term e || is_Exception amb e)
        (fun e =>
           if is_KeyboardInterrupt term e
           then print (NL ++ NL ++ "👋 Saindo do modo interativo...")
           else
             let* _ := print (NL ++ "❌ Erro na entrada de dados: " ++ str_exc amb e) in
             print "Certifique-se de inserir valores numéricos válidos.")
  end.

(** The [try] block of [menu_interativo], which the function runs under
    its two [except] clauses ([menu_interativo_try] below). *)
Definition menu_bloco_try {W} (term : Terminal W) (fmt : Formato)
    (modelo : Modelo (Console W)) (scaler : Scaler (Console W))
    (feature_columns : list string) : M (Console W) unit :=
  let* _ := print (NL ++ "📝 Insira os dados do paciente:") in
  let* s := input term "Número de gestações (0-17): " in
  let* gestacoes := lift (to_int term s) in
  let* s := input term "Glicemia em jejum (mg/dL, ex: 110): " in
  let* glicemia := lift (to_float term s) in
  let* s := input term "Pressão arterial diastólica (mmHg, ex: 80): " in
  let* pressao := lift (to_float term s) in
  let* s := input term "Espessura da pele tricipital (mm, ex: 25): " in
  let* pele := lift (to_float term s) in
  let* s := input term "Insulina sérica (mu U/ml, ex: 100): " in
  let* insulina := lift (to_float term s) in
  let* s := input term "IMC (kg/m², ex: 28.5): " in
  let* imc := lift (to_float term s) in
  let* s := input term "Função de herança genética (0.1-2.5, ex: 0.5): " in
  let* heranca := lift (to_float term s) in
  let* s := input term "Idade (anos, ex: 35): " in
  let* idade := lift (to_int term s) in
  let* _ := print (NL ++ "🏥 Selecione o contexto clínico:") in
  let* _ := print "1. Triagem populacional (threshold 0.35 - máxima detecção)" in
  let* _ := print "2. Consulta médica (threshold 0.45 - equilibrado)" in
  let* _ := print "3. Medicina preventiva (threshold 0.60 - conservador)" in
  let* contexto_num := input term "Escolha (1/2/3): " in
  let contexto := default "consulta_medica" (contextos_map !! contexto_num) in
  let dados_usuario :=
    [gestacoes; glicemia; pressao; pele; insulina; imc; heranca; idade] in
  let* resultado :=
    predizer_diabetes dados_usuario modelo scaler feature_columns
      None (Some contexto) in
  exibir_resultado fmt dados_usuario resultado feature_columns.

(** A terminal for the fixtures: every [input] raises [e]. *)
Definition terminal_falho {W} (e : exception) : Terminal W :=
  {| input := fun _ => raise e;
     to_int := fun _ => inr 0%float;
     to_float := fun _ => inr 0%float;
     is_KeyboardInterrupt := fun e =>
       match e with Raised "KeyboardInterrupt" => true | _ => false end |}.

(** A terminal for the fixtures: [input] answers every prompt as [resposta]
    tells, and every answer converts to the number 1. *)
Definition terminal_roteiro {W} (resposta : string -> string) : Terminal W :=
  {| input := fun prompt => ret (resposta prompt);
     to_int := fun _ => inr 1%float;
     to_float := fun _ => inr 1%float;
     is_KeyboardInterrupt := fun e =>
       match e with Raised "KeyboardInterrupt" => true | _ => false end |}.

(** An environment whose file of feature names holds one name too few. *)
Definition ambiente_sete {W} (p : float) : Ambiente W :=
  {| path_exists := fun _ => ret true;
     load_modelo := fun _ => ret (modelo_constante p);
     load_scaler := fun _ => ret scaler_identidade;
     load_colunas := fun _ => ret (take 7 feature_columns_pima);
     is_Exception := fun _ => true;
     str_exc := fun _ => "" |}.

(** * Facts about binary64 order and rounding *)

Module F64Facts.
Import F64.
Local Open Scope Z_scope.

Lemma SFcompare_key x y : SFcompare x y = key_cmp x y.
Proof.
  destruct x as [[]|[]| |[] mx ex], y as [[]|[]| |[] my ey]; try reflexivity.
  cbn. unfold lex_cmp; cbn -[Z.compare Z.opp].
  rewrite Z.compare_opp, (Z.compare_antisym ex ey).
  change (- Z.pos mx ?= - Z.pos my) with (CompOpp (mx ?= my)%positive).
  destruct (ex ?= ey); reflexivity.
Qed.

Ltac lex_cases a b :=
  destruct a as [[? ?] ?], b as [[? ?] ?];
  unfold lex_leb, lex_ltb, lex_cmp, lex_lt, lex_le; cbn [fst snd];
  repeat match goal with
         | |- context [?u ?= ?v] => destruct (Z.compare_spec u v)
         end;
  split; intros; try discriminate; try reflexivity; lia.

Lemma lex_leb_true a b : lex_leb a b = true <-> lex_le a b.
Proof. lex_cases a b. Qed.

Lemma lex_leb_false a b : lex_leb a b = false <-> lex_lt b a.
Proof. lex_cases a b. Qed.

Lemma lex_ltb_true a b : lex_ltb a b = true <-> lex_lt a b.
Proof. lex_cases a b. Qed.

Lemma lex_ltb_false a b : lex_ltb a b = false <-> lex_le b a.
Proof. lex_cases a b. Qed.

Lemma lex_cmp_refl a : lex_cmp a a = Eq.
Proof. unfold lex_cmp. rewrite !Z.compare_refl. reflexivity. Qed.

(** The primitive comparisons, read on keys. *)

Lemma leb_key x y :
  (x <=? y)%float =
  match fkey x, fkey y with Some a, Some b => lex_leb a b | _, _ => false end.
Proof.
  rewrite FloatAxioms.leb_spec. unfold SFleb. rewrite SFcompare_key.
  unfold key_cmp, fkey, lex_leb.
  destruct (key (Prim2SF x)), (key (Prim2SF y)); reflexivity.
Qed.

Lemma ltb_key x y :
  (x <? y)%float =
  match fkey x, fkey y with Some a, Some b => lex_ltb a b | _, _ => false end.
Proof.
  rewrite FloatAxioms.ltb_spec. unfold SFltb. rewrite SFcompare_key.
  unfold key_cmp, fkey, lex_ltb.
  destruct (key (Prim2SF x)), (key (Prim2SF y)); reflexivity.
Qed.

Lemma eqb_key x y :
  (x =? y)%float =
  match fkey x, fkey y with
  | Some a, Some b => match lex_cmp a b with Eq => true | _ => false end
  | _, _ => false
  end.
Proof.
  rewrite FloatAxioms.eqb_spec. unfold SFeqb. rewrite SFcompare_key.
  unfold key_cmp, fkey.
  destruct (key (Prim2SF x)), (key (Prim2SF y)); reflexivity.
Qed.

Lemma is_nan_key x :
  is_nan x = match fkey x with Some _ => false | None => true end.
Proof.
  unfold is_nan. rewrite eqb_key. destruct (fkey x); [|reflexivity].
  rewrite lex_cmp_refl. reflexivity.
Qed.

(** Keys of the literals of the program. *)

Lemma fkey_02 : fkey 0.2 = Some (1, -55, 7205759403792794).
Proof. reflexivity. Qed.
Lemma fkey_03 : fkey 0.3 = Some (1, -54, 5404319552844595).
Proof. reflexivity. Qed.
Lemma fkey_035 : fkey 0.35 = Some (1, -54, 6305039478318694).
Proof. reflexivity. Qed.
Lemma fkey_04 : fkey 0.4 = Some (1, -54, 7205759403792794).
Proof. reflexivity. Qed.
Lemma fkey_045 : fkey 0.45 = Some (1, -54, 8106479329266893).
Proof. reflexivity. Qed.
Lemma fkey_06 : fkey 0.6 = Some (1, -53, 5404319552844595).
Proof. reflexivity. Qed.
Lemma fkey_08 : fkey 0.8 = Some (1, -53, 7205759403792794).
Proof. reflexivity. Qed.

Ltac lex_reflect :=
  repeat match goal with
         | H : lex_leb _ _ = true |- _ => apply lex_leb_true in H
         | H : lex_leb _ _ = false |- _ => apply lex_leb_false in H
         | H : lex_ltb _ _ = true |- _ => apply lex_ltb_true in H
         | H : lex_ltb _ _ = false |- _ => apply lex_ltb_false in H
         | |- lex_leb _ _ = true => apply lex_leb_true
         | |- lex_leb _ _ = false => apply lex_leb_false
         | |- lex_ltb _ _ = true => apply lex_ltb_true
         | |- lex_ltb _ _ = false => apply lex_ltb_false
         end;
  unfold lex_le, lex_lt in *; cbn [fst snd] in *.

(** Closes goals about the order of floats by linear arithmetic on keys. *)
Ltac float_order :=
  unfold FloatCmp.geb, FloatCmp.gtb in *;
  rewrite ?leb_key, ?ltb_key, ?is_nan_key in *;
  rewrite ?fkey_02, ?fkey_03, ?fkey_035, ?fkey_04, ?fkey_045, ?fkey_06, ?fkey_08 in *;
  repeat match goal with
         | H : context [fkey ?x] |- _ => destruct (fkey x) as [[[? ?] ?]|]
         | |- context [fkey ?x] => destruct (fkey x) as [[[? ?] ?]|]
         end;
  cbv beta iota in *; try discriminate; try reflexivity;
  lex_reflect; lia.

Lemma leb_trans x y z :
  (x <=? y)%float = true -> (y <=? z)%float = true -> (x <=? z)%float = true.
Proof. intros; float_order. Qed.

Lemma ltb_leb_false x y : (x <? y)%float = true -> (y <=? x)%float = false.
Proof. intros; float_order. Qed.

Lemma leb_false_ltb x y :
  is_nan x = false -> is_nan y = false ->
  (x <=? y)%float = false -> (y <? x)%float = true.
Proof. intros; float_order. Qed.

Lemma eqb_leb x y : (x =? y)%float = true -> (y <=? x)%float = true.
Proof.
  rewrite eqb_key, leb_key. destruct (fkey x) as [a|], (fkey y) as [b|]; try discriminate.
  intros H. apply lex_leb_true.
  destruct a as [[? ?] ?], b as [[? ?] ?]. unfold lex_cmp, lex_le in *. cbn [fst snd] in *.
  repeat match goal with
         | H : context [?u ?= ?v] |- _ => destruct (Z.compare_spec u v)
         end; try discriminate; lia.
Qed.

Lemma eqb_ltb_false x y : (x =? y)%float = true -> (y <? x)%float = false.
Proof.
  rewrite eqb_key, ltb_key. destruct (fkey x) as [a|], (fkey y) as [b|]; try discriminate.
  intros H. apply lex_ltb_false.
  destruct a as [[? ?] ?], b as [[? ?] ?]. unfold lex_cmp, lex_le in *. cbn [fst snd] in *.
  repeat match goal with
         | H : context [?u ?= ?v] |- _ => destruct (Z.compare_spec u v)
         end; try discriminate; lia.
Qed.

(** ** Rounding *)

Lemma digits2_pos_bounds m :
  2 ^ (Zpos (digits2_pos m) - 1) <= Zpos m < 2 ^ Zpos (digits2_pos m).
Proof.
  induction m as [m IH|m IH|]; cbn [digits2_pos].
  - rewrite Pos2Z.inj_succ, Z.pow_succ_r by lia.
    replace (Z.succ (Zpos (digits2_pos m)) - 1)
      with (Z.succ (Zpos (digits2_pos m) - 1)) by lia.
    rewrite Z.pow_succ_r by lia. lia.
  - rewrite Pos2Z.inj_succ, Z.pow_succ_r by lia.
    replace (Z.succ (Zpos (digits2_pos m)) - 1)
      with (Z.succ (Zpos (digits2_pos m) - 1)) by lia.
    rewrite Z.pow_succ_r by lia. lia.
  - cbn. lia.
Qed.

Lemma digits2_pos_unique m n :
  2 ^ (n - 1) <= Zpos m < 2 ^ n -> 0 < n -> Zpos (digits2_pos m) = n.
Proof.
  intros [Hlo Hhi] Hn. pose proof (digits2_pos_bounds m) as [Dlo Dhi].
  destruct (Z.lt_trichotomy (Zpos (digits2_pos m)) n) as [Hlt|[->|Hgt]];
    [exfalso| reflexivity |exfalso].
  - assert (2 ^ Zpos (digits2_pos m) <= 2 ^ (n - 1)) by (apply Z.pow_le_mono_r; lia).
    lia.
  - assert (2 ^ n <= 2 ^ (Zpos (digits2_pos m) - 1)) by (apply Z.pow_le_mono_r; lia).
    lia.
Qed.

Lemma digits2_pos_below m n :
  Zpos m < 2 ^ n -> 0 <= n -> Zpos (digits2_pos m) <= n.
Proof.
  intros Hm Hn. pose proof (digits2_pos_bounds m) as [Dlo _].
  destruct (Z.le_gt_cases (Zpos (digits2_pos m)) n) as [|Hgt]; [assumption|exfalso].
  assert (2 ^ n <= 2 ^ (Zpos (digits2_pos m) - 1)) by (apply Z.pow_le_mono_r; lia).
  lia.
Qed.

Lemma iter_xO_value k q : Zpos (Pos.iter xO k q) = Zpos k * 2 ^ Zpos q.
Proof.
  induction q as [|q IH] using Pos.peano_ind.
  - cbn [Pos.iter]. lia.
  - rewrite Pos.iter_succ, Pos2Z.inj_xO, IH, Pos2Z.inj_succ, Z.pow_succ_r by lia. lia.
Qed.

Lemma iter_xO_digits k q :
  Zpos (digits2_pos (Pos.iter xO k q)) = Zpos (digits2_pos k) + Zpos q.
Proof.
  induction q as [|q IH] using Pos.peano_ind.
  - cbn [Pos.iter digits2_pos]. lia.
  - rewrite Pos.iter_succ. cbn [digits2_pos]. lia.
Qed.

Lemma fexp_above e : -1074 <= e - 53 -> fexp prec emax e = e - 53.
Proof. intros H. unfold fexp, SpecFloat.emin, prec, emax. lia. Qed.

Lemma exponent_in_range e : e <= 971 -> (e <=? emax - prec) = true.
Proof. intros H. apply Z.leb_le. unfold emax, prec. lia. Qed.

Lemma shr_fexp_canonical m e :
  Zpos (digits2_pos m) = 53 -> -1074 <= e ->
  shr_fexp prec emax (Zpos m) e loc_Exact =
  ({| shr_m := Zpos m; shr_r := false; shr_s := false |}, e).
Proof.
  intros Hd He. unfold shr_fexp. cbn [Zdigits2]. rewrite Hd, fexp_above by lia.
  replace (53 + e - 53 - e) with 0 by lia. reflexivity.
Qed.

Lemma binary_round_aux_canonical s m e :
  Zpos (digits2_pos m) = 53 -> -1074 <= e <= 971 ->
  binary_round_aux prec emax s (Zpos m) e loc_Exact = S754_finite s m e.
Proof.
  intros Hd He. unfold binary_round_aux.
  rewrite shr_fexp_canonical by lia. cbn [shr_m loc_of_shr_record round_nearest_even].
  rewrite shr_fexp_canonical by lia. cbn [shr_m].
  rewrite exponent_in_range by lia. reflexivity.
Qed.

(** A value [k * 2^e] with at most 53 significant bits is not rounded:
    its mantissa is shifted left until it has 53 bits. *)
Lemma binary_round_exact s k e :
  let d := Zpos (digits2_pos k) in
  d <= 53 -> -1074 <= d + e - 53 <= 971 ->
  exists m, binary_round prec emax s k e = S754_finite s m (d + e - 53)
            /\ Zpos m = Zpos k * 2 ^ (53 - d).
Proof.
  intros d Hd He. unfold binary_round. fold d. rewrite fexp_above by lia.
  unfold shl_align. destruct (d + e - 53 - e) as [|q|q] eqn:Hq.
  - exists k. replace e with (d + e - 53) at 1 by lia.
    rewrite binary_round_aux_canonical by (unfold d in *; lia).
    split; [reflexivity|]. replace (53 - d) with 0 by lia. lia.
  - lia.
  - exists (Pos.iter xO k q). rewrite binary_round_aux_canonical.
    + split; [reflexivity|]. rewrite iter_xO_value. f_equal. f_equal. lia.
    + rewrite iter_xO_digits. fold d. lia.
    + lia.
Qed.

(** A 54-bit mantissa loses its last bit, rounded to nearest, ties to even. *)
Lemma binary_round_54 s k e :
  2 ^ 53 <= Zpos k <= 2 ^ 54 - 2 -> -1074 <= e + 1 <= 971 ->
  exists m, binary_round prec emax s k e = S754_finite s m (e + 1)
            /\ Zpos k - 1 <= 2 * Zpos m <= Zpos k + 1.
Proof.
  intros Hk He.
  assert (Hd : Zpos (digits2_pos k) = 54) by (apply digits2_pos_unique; lia).
  unfold binary_round. rewrite Hd, fexp_above by lia.
  unfold shl_align. replace (54 + e - 53 - e) with 1 by lia.
  unfold binary_round_aux.
  replace (shr_fexp prec emax (Zpos k) e loc_Exact)
    with (shr_1 {| shr_m := Zpos k; shr_r := false; shr_s := false |}, e + 1).
  2:{ unfold shr_fexp. cbn [Zdigits2]. rewrite Hd, fexp_above by lia.
      replace (54 + e - 53 - e) with 1 by lia. reflexivity. }
  destruct k as [p|p|];
    cbn [shr_1 orb shr_m loc_of_shr_record round_nearest_even]; [| |lia].
  - destruct (Z.even (Zpos p)) eqn:Hev.
    + rewrite shr_fexp_canonical by (try apply digits2_pos_unique; lia).
      cbn [shr_m]. exists p. rewrite exponent_in_range by lia.
      split; [reflexivity|lia].
    + change (Zpos p + 1) with (Zpos (p + 1)).
      rewrite shr_fexp_canonical by (try apply digits2_pos_unique; lia).
      cbn [shr_m]. exists (p + 1)%positive. rewrite exponent_in_range by lia.
      split; [reflexivity|lia].
  - rewrite shr_fexp_canonical by (try apply digits2_pos_unique; lia).
    cbn [shr_m]. exists p. rewrite exponent_in_range by lia.
    split; [reflexivity|lia].
Qed.

Lemma canonical_53 m e :
  valid_binary (S754_finite false m e) = true -> -1074 < e ->
  2 ^ 52 <= Zpos m < 2 ^ 53.
Proof.
  cbn [SpecFloat.valid_binary].
  unfold bounded, canonical_mantissa, fexp, SpecFloat.emin.
  intros H He. apply andb_prop in H as [H _]. apply Z.eqb_eq in H.
  unfold prec, emax in H.
  assert (Hd : Zpos (digits2_pos m) = 53) by lia.
  pose proof (digits2_pos_bounds m) as Hb. rewrite Hd in Hb. exact Hb.
Qed.

(** ** The subtraction [p - 0.5] on the band [0.2 <= p < 0.8]

    The keys are those of the literals [0.2], [0.8] and [0.3]. *)
Lemma sub_half_band x a :
  valid_binary x = true -> key x = Some a ->
  lex_le (1, -55, 7205759403792794) a -> lex_lt a (1, -53, 7205759403792794) ->
  exists b, key (SFabs (SF64sub x c05)) = Some b
            /\ lex_le b (1, -54, 5404319552844595).
Proof.
  intros Hv Hk Hlo Hhi.
  destruct x as [[]|[]| |[] m e]; cbn in Hk; try discriminate;
    injection Hk as <-; unfold lex_le, lex_lt in Hlo, Hhi; cbn [fst snd] in Hlo, Hhi;
    try lia.
  assert (He : e = -53 \/ e = -54 \/ e = -55) by lia.
  pose proof (canonical_53 m e Hv ltac:(lia)) as Hm.
  unfold lex_le; cbn [fst snd].
  destruct He as [->|[->| ->]].
  - (* 0.5 <= p < 0.8: the difference is exact *)
    change (SF64sub (S754_finite false m (-53)) c05)
      with (binary_normalize prec emax (Zpos m - 4503599627370496) (-53) false).
    destruct (Zpos m - 4503599627370496) as [|k|k] eqn:Hk; [| |lia];
      cbn [binary_normalize].
    + eexists; split; [reflexivity|]. cbn [fst snd]. lia.
    + assert (Hd : Zpos (digits2_pos k) <= 52) by (apply digits2_pos_below; lia).
      destruct (binary_round_exact false k (-53)) as (r & -> & Hr); [lia|lia|].
      eexists; split; [reflexivity|]. cbn [fst snd].
      destruct (Z.eq_dec (Zpos (digits2_pos k)) 52) as [E|NE]; [|lia].
      rewrite E in Hr. change (2 ^ (53 - 52)) with 2 in Hr. lia.
  - (* 0.25 <= p < 0.5: exact again *)
    change (SF64sub (S754_finite false m (-54)) c05)
      with (binary_normalize prec emax (Zpos m - 9007199254740992) (-54) false).
    destruct (Zpos m - 9007199254740992) as [|k|k] eqn:Hk; [lia|lia|];
      cbn [binary_normalize].
    assert (Hd : Zpos (digits2_pos k) <= 53) by (apply digits2_pos_below; lia).
    destruct (binary_round_exact true k (-54)) as (r & -> & Hr); [lia|lia|].
    eexists; split; [reflexivity|]. cbn [fst snd].
    destruct (Z.eq_dec (Zpos (digits2_pos k)) 53) as [E|NE]; [|lia].
    rewrite E in Hr. change (2 ^ (53 - 53)) with 1 in Hr. lia.
  - (* 0.2 <= p < 0.25: one bit is rounded away *)
    change (SF64sub (S754_finite false m (-55)) c05)
      with (binary_normalize prec emax (Zpos m - 18014398509481984) (-55) false).
    destruct (Zpos m - 18014398509481984) as [|k|k] eqn:Hk; [lia|lia|];
      cbn [binary_normalize].
    destruct (binary_round_54 true k (-55)) as (r & -> & Hr); [lia|lia|].
    eexists; split; [reflexivity|]. cbn [fst snd]. lia.
Qed.

(** [abs(p - 0.5) > 0.3] is false on the whole band [0.2 <= p < 0.8]. *)
Lemma confidence_band p :
  (p >=? 0.2)%float = true -> (p >=? 0.8)%float = false ->
  (abs (p - 0.5) >? 0.3)%float = false.
Proof.
  unfold FloatCmp.geb, FloatCmp.gtb.
  rewrite !leb_key, ltb_key, fkey_02, fkey_03, fkey_08.
  unfold fkey at 3. rewrite abs_spec, sub_spec. change (Prim2SF 0.5) with c05.
  pose proof (Prim2SF_valid p) as Hv. unfold fkey.
  destruct (key (Prim2SF p)) as [a|] eqn:Hk; [|discriminate].
  intros Hlo%lex_leb_true Hhi%lex_leb_false.
  destruct (sub_half_band _ _ Hv Hk Hlo Hhi) as (b & -> & Hb).
  apply lex_ltb_false. exact Hb.
Qed.
End F64Facts.

(** * Facts about the engine *)

Section EngineFacts.
Context {World : Type}.
Variables (dados : list float) (modelo : Modelo World) (scaler : Scaler World)
          (cols : list string).

Lemma predizer_diabetes_split threshold contexto w :
  predizer_diabetes dados modelo scaler cols threshold contexto w =
  match probabilidade_de dados modelo scaler cols w with
  | (inl e, w') => (inl e, w')
  | (inr p, w') => (inr (registro threshold contexto p), w')
  end.
Proof.
  unfold predizer_diabetes, probabilidade_de, bind, lift.
  destruct (pd_DataFrame [dados] cols) as [e|df]; [reflexivity|].
  destruct (transform scaler df w) as [[e|norm] w1]; [reflexivity|].
  destruct (predict_proba modelo norm w1) as [[e|proba] w2]; [reflexivity|].
  destruct (index2 proba 0 1 w2) as [[e|p] w3]; [reflexivity|].
  unfold registro, limiar, ret.
  destruct (interpretar_risco p) as [nivel descricao].
  destruct (p >=? _)%float; reflexivity.
Qed.

(** A call that returns a dictionary returns [registro] of some probability. *)
Lemma predizer_diabetes_inr threshold contexto w r w' :
  predizer_diabetes dados modelo scaler cols threshold contexto w = (inr r, w') ->
  exists p, probabilidade_de dados modelo scaler cols w = (inr p, w')
            /\ r = registro threshold contexto p.
Proof.
  rewrite predizer_diabetes_split.
  destruct (probabilidade_de dados modelo scaler cols w) as [[e|p] w1]; [discriminate|].
  intros [= <- <-]. exists p. split; reflexivity.
Qed.

(** When the frame is built, the scaler and the model return and the
    model's array has a cell [[0][1]], the call returns the dictionary built
    from that cell, in the world the model left. *)
Lemma predizer_diabetes_of_model threshold contexto w df norm w1 proba w2 row p :
  pd_DataFrame [dados] cols = inr df ->
  transform scaler df w = (inr norm, w1) ->
  predict_proba modelo norm w1 = (inr proba, w2) ->
  proba !! 0%nat = Some row -> row !! 1%nat = Some p ->
  predizer_diabetes dados modelo scaler cols threshold contexto w
  = (inr (registro threshold contexto p), w2).
Proof.
  intros Hdf Hs Hm Hrow Hp. rewrite predizer_diabetes_split.
  unfold probabilidade_de, bind, lift. rewrite Hdf, Hs, Hm.
  unfold index2. rewrite Hrow, Hp. reflexivity.
Qed.

Lemma probabilidade_de_pure :
  pure_call (transform scaler) -> pure_call (predict_proba modelo) ->
  forall w1 w2,
    (probabilidade_de dados modelo scaler cols w1).1
    = (probabilidade_de dados modelo scaler cols w2).1
    /\ (probabilidade_de dados modelo scaler cols w1).2 = w1.
Proof.
  intros Hs Hm w1 w2. unfold probabilidade_de, bind, lift.
  destruct (pd_DataFrame [dados] cols) as [e|df]; [split; reflexivity|].
  destruct (Hs df w1 w2) as [Hs1 Hs2].
  destruct (transform scaler df w1) as [[e1|n1] u1],
           (transform scaler df w2) as [[e2|n2] u2];
    cbn [fst snd] in Hs1, Hs2 |- *; try discriminate; subst u1.
  { split; [congruence|reflexivity]. }
  injection Hs1 as <-. cbn beta iota.
  destruct (Hm n1 w1 u2) as [Hm1 Hm2].
  destruct (predict_proba modelo n1 w1) as [[e1|p1] v1],
           (predict_proba modelo n1 u2) as [[e2|p2] v2];
    cbn [fst snd] in Hm1, Hm2 |- *; try discriminate; subst v1.
  { split; [congruence|reflexivity]. }
  injection Hm1 as <-.
  unfold index2, ret, raise.
  destruct (p1 !! 0%nat) as [row|]; [|split; reflexivity].
  destruct (row !! 1%nat); split; reflexivity.
Qed.
End EngineFacts.

Section ThresholdFacts.
Lemma lookup_triagem : thresholds_contexto !! "triagem" = Some 0.35%float.
Proof. unfold thresholds_contexto. apply lookup_insert_eq. Qed.

Lemma lookup_consulta_medica :
  thresholds_contexto !! "consulta_medica" = Some 0.45%float.
Proof.
  unfold thresholds_contexto.
  rewrite lookup_insert_ne by discriminate. apply lookup_insert_eq.
Qed.

Lemma lookup_preventiva : thresholds_contexto !! "preventiva" = Some 0.60%float.
Proof.
  unfold thresholds_contexto.
  rewrite !lookup_insert_ne by discriminate. apply lookup_insert_eq.
Qed.

Lemma lookup_other (c : string) :
  c <> "triagem" -> c <> "consulta_medica" -> c <> "preventiva" ->
  thresholds_contexto !! c = None.
Proof.
  intros H1 H2 H3. unfold thresholds_contexto.
  rewrite !lookup_insert_ne by congruence. apply lookup_empty.
Qed.

Lemma limiar_triagem t : limiar t (Some "triagem") = 0.35%float.
Proof. unfold limiar. cbn [from_option id]. rewrite lookup_triagem. reflexivity. Qed.

Lemma limiar_consulta_medica t : limiar t (Some "consulta_medica") = 0.45%float.
Proof. unfold limiar. cbn [from_option id]. rewrite lookup_consulta_medica. reflexivity. Qed.

Lemma limiar_preventiva t : limiar t (Some "preventiva") = 0.60%float.
Proof. unfold limiar. cbn [from_option id]. rewrite lookup_preventiva. reflexivity. Qed.
End ThresholdFacts.

(** ** The stand-in objects *)

Lemma pure_scaler_identidade {World} :
  pure_call (transform (@scaler_identidade World)).
Proof. intros df w1 w2. split; reflexivity. Qed.

Lemma pure_modelo_constante {World} p :
  pure_call (predict_proba (@modelo_constante World p)).
Proof. intros x w1 w2. split; reflexivity. Qed.

(** With the stand-ins the call succeeds and the probability is [p]. *)
Lemma predizer_constante {World} dados cols p threshold contexto (w : World) :
  length dados = length cols ->
  predizer_diabetes dados (modelo_constante p) scaler_identidade cols
    threshold contexto w
  = (inr (registro threshold contexto p), w).
Proof.
  intros Hlen. rewrite predizer_diabetes_split.
  unfold probabilidade_de, bind, lift, pd_DataFrame.
  cbn [forallb]. rewrite Hlen, Nat.eqb_refl. reflexivity.
Qed.

(** * The claims *)

(** C1 — Threshold resolution.  Whenever a call returns a result, a
    recognised context ('triagem', 'consulta_medica' — also the default when
    the argument is left out — or 'preventiva') fixes the threshold used to
    0.35, 0.45 or 0.60, whatever threshold was passed; any other context
    leaves the passed threshold, 0.45 when none was passed. *)
Theorem threshold_resolution {World}
    dados (modelo : Modelo World) scaler cols threshold contexto w r w' :
  predizer_diabetes dados modelo scaler cols threshold contexto w = (inr r, w') ->
  (contexto = Some "triagem" -> threshold_usado r = 0.35%float)
  /\ (contexto = Some "consulta_medica" \/ contexto = None ->
      threshold_usado r = 0.45%float)
  /\ (contexto = Some "preventiva" -> threshold_usado r = 0.60%float)
  /\ (forall c, contexto = Some c ->
        c <> "triagem" -> c <> "consulta_medica" -> c <> "preventiva" ->
        threshold_usado r = default 0.45%float threshold).
Proof.
  intros H. apply predizer_diabetes_inr in H as (p & _ & ->).
  cbn [threshold_usado registro].
  repeat split.
  - intros ->. apply limiar_triagem.
  - intros [-> | ->]; apply limiar_consulta_medica || idtac.
    unfold limiar. cbn [from_option id]. rewrite lookup_consulta_medica. reflexivity.
  - intros ->. apply limiar_preventiva.
  - intros c -> H1 H2 H3. unfold limiar. cbn [from_option id].
    rewrite lookup_other by assumption. reflexivity.
Qed.

Lemma threshold_resolution_witness :
  predizer_diabetes paciente_C (modelo_constante 0.83) scaler_identidade
    feature_columns_pima (Some 0.9%float) (Some "triagem") tt
  = (inr (registro (Some 0.9%float) (Some "triagem") 0.83), tt)
  /\ threshold_usado (registro (Some 0.9%float) (Some "triagem") 0.83) = 0.35%float.
Proof.
  split.
  - apply predizer_constante. reflexivity.
  - apply (threshold_resolution paciente_C (modelo_constante 0.83) scaler_identidade
             feature_columns_pima (Some 0.9%float) (Some "triagem") tt _ tt).
    + apply predizer_constante. reflexivity.
    + reflexivity.
Defined.

(** C2 — Labeling.  Whenever the model returns an array whose cell [[0][1]]
    is [p], the call returns a result whose probability is [p] and whose
    threshold is the resolved one (the table value of the context, else the
    threshold passed, else 0.45); its label is 'DIABETES' exactly when
    [p >= t] for that threshold [t], and 'NÃO-DIABETES' exactly when not; a
    probability equal to the threshold is labelled 'DIABETES'. *)
Theorem labeling {World}
    dados (modelo : Modelo World) scaler cols threshold contexto w
    df norm w1 proba w2 row p :
  pd_DataFrame [dados] cols = inr df ->
  transform scaler df w = (inr norm, w1) ->
  predict_proba modelo norm w1 = (inr proba, w2) ->
  proba !! 0%nat = Some row -> row !! 1%nat = Some p ->
  exists r t,
    predizer_diabetes dados modelo scaler cols threshold contexto w = (inr r, w2)
    /\ probabilidade r = p
    /\ threshold_usado r = t
    /\ t = match thresholds_contexto !! default "consulta_medica" contexto with
           | Some tabela => tabela
           | None => default 0.45%float threshold
           end
    /\ (predicao r = "DIABETES" <-> (p >=? t)%float = true)
    /\ (predicao r = "NÃO-DIABETES" <-> (p >=? t)%float = false)
    /\ ((p =? t)%float = true -> predicao r = "DIABETES").
Proof.
  intros Hdf Hs Hm Hrow Hp.
  exists (registro threshold contexto p), (limiar threshold contexto).
  split; [eapply predizer_diabetes_of_model; eassumption|].
  cbn [predicao probabilidade threshold_usado registro].
  split; [reflexivity|]. split; [reflexivity|]. split; [reflexivity|].
  split; [|split].
  - destruct (p >=? _)%float; split; (reflexivity || discriminate).
  - destruct (p >=? _)%float; split; (reflexivity || discriminate).
  - intros Heq. apply F64Facts.eqb_leb in Heq.
    fold (FloatCmp.geb p (limiar threshold contexto)) in Heq. rewrite Heq. reflexivity.
Qed.

Lemma labeling_witness :
  exists r,
    predizer_diabetes paciente_B (modelo_constante 0.45) scaler_identidade
      feature_columns_pima None (Some "consulta_medica") tt = (inr r, tt)
    /\ probabilidade r = 0.45%float
    /\ threshold_usado r = 0.45%float
    /\ predicao r = "DIABETES".
Proof.
  destruct (labeling paciente_B (modelo_constante 0.45) scaler_identidade
              feature_columns_pima None (Some "consulta_medica") tt
              {| columns := feature_columns_pima; values := [paciente_B] |}
              [paciente_B] tt [[1 - 0.45; 0.45]%float] tt [1 - 0.45; 0.45]%float 0.45
              eq_refl eq_refl eq_refl eq_refl eq_refl)
    as (r & t & Hrun & Hp & Ht & Htab & _ & _ & Heq).
  cbn [from_option id] in Htab. rewrite lookup_consulta_medica in Htab.
  rewrite Htab in Ht, Heq.
  exists r. split; [exact Hrun|]. split; [exact Hp|]. split; [exact Ht|].
  apply Heq. reflexivity.
Defined.

(** Closes one branch of a case analysis on the comparisons of
    [interpretar_risco]. *)
Ltac tier_branch :=
  first [ assumption | discriminate | reflexivity
        | solve [F64Facts.float_order]
        | solve [exfalso; F64Facts.float_order] ].

(** C3 — Risk tiers.  For every probability (a float that is not NaN)
    [interpretar_risco] returns one of the five pairs of tier and narrative,
    and which one is decided by the lower-inclusive boundaries 0.8, 0.6, 0.4
    and 0.2. *)
Theorem risk_tiers (p : float) :
  is_nan p = false ->
  In (interpretar_risco p) niveis
  /\ (interpretar_risco p = muito_alto <-> (p >=? 0.8)%float = true)
  /\ (interpretar_risco p = alto <->
        (p >=? 0.6)%float = true /\ (p <? 0.8)%float = true)
  /\ (interpretar_risco p = moderado <->
        (p >=? 0.4)%float = true /\ (p <? 0.6)%float = true)
  /\ (interpretar_risco p = baixo <->
        (p >=? 0.2)%float = true /\ (p <? 0.4)%float = true)
  /\ (interpretar_risco p = muito_baixo <-> (p <? 0.2)%float = true).
Proof.
  intros Hnan. unfold interpretar_risco, niveis, muito_alto, alto, moderado, baixo,
    muito_baixo.
  destruct (p >=? 0.8)%float eqn:H8; destruct (p >=? 0.6)%float eqn:H6;
    destruct (p >=? 0.4)%float eqn:H4; destruct (p >=? 0.2)%float eqn:H2;
    (split; [cbn [In]; tauto|]);
    repeat match goal with
           | |- _ /\ _ => split
           | |- _ <-> _ => split
           | |- _ -> _ => intros ?
           | H : _ /\ _ |- _ => destruct H
           end;
    tier_branch.
Qed.

Lemma risk_tiers_witness :
  interpretar_risco 0.42 = moderado.
Proof.
  apply (risk_tiers 0.42); [reflexivity|]. split; reflexivity.
Defined.

(** NaN, which no comparison accepts, falls through to the last branch. *)
Example interpretar_risco_nan : interpretar_risco nan = muito_baixo.
Proof. reflexivity. Qed.

(** C4 — Schema violation.  A feature vector whose length differs from the
    number of column names makes the call raise [SchemaError]: no result is
    returned, and neither the scaler nor the model is reached. *)
Theorem schema_violation {World}
    dados (modelo : Modelo World) scaler cols threshold contexto w :
  length dados <> length cols ->
  predizer_diabetes dados modelo scaler cols threshold contexto w
  = (inl SchemaError, w).
Proof.
  intros Hlen. unfold predizer_diabetes, bind, lift, pd_DataFrame. cbn [forallb].
  apply Nat.eqb_neq in Hlen. rewrite Hlen. reflexivity.
Qed.

Lemma schema_violation_witness :
  length paciente_curto = 7%nat /\ length feature_columns_pima = 8%nat
  /\ predizer_diabetes paciente_curto (modelo_constante 0.52) scaler_identidade
       feature_columns_pima None None tt
     = (inl SchemaError, tt).
Proof.
  split; [reflexivity|]. split; [reflexivity|].
  apply (schema_violation paciente_curto (modelo_constante 0.52) scaler_identidade
           feature_columns_pima None None tt).
  cbn. lia.
Defined.

(** C5, as amended — Context noninterference.  Two calls that differ only
    in the threshold and context arguments fail alike or return results with
    the same probability, tier, narrative and confidence; the label, the
    threshold used and the echoed context are the fields that may differ. *)
Theorem context_noninterference {World}
    dados (modelo : Modelo World) scaler cols t1 c1 t2 c2 w :
  match predizer_diabetes dados modelo scaler cols t1 c1 w,
        predizer_diabetes dados modelo scaler cols t2 c2 w with
  | (inr r1, w1), (inr r2, w2) => same_magnitude r1 r2 /\ w1 = w2
  | (inl e1, w1), (inl e2, w2) => e1 = e2 /\ w1 = w2
  | _, _ => False
  end.
Proof.
  rewrite !predizer_diabetes_split.
  destruct (probabilidade_de dados modelo scaler cols w) as [[e|p] w1].
  - split; reflexivity.
  - split; [|reflexivity]. repeat split.
Qed.

(** C5, as stated, fails: the results of two contexts also differ in the
    field [contexto], which echoes the argument. *)
Lemma context_field_differs :
  exists r1 r2,
    predizer_diabetes paciente_B (modelo_constante 0.52) scaler_identidade
      feature_columns_pima None (Some "triagem") tt = (inr r1, tt)
    /\ predizer_diabetes paciente_B (modelo_constante 0.52) scaler_identidade
      feature_columns_pima None (Some "preventiva") tt = (inr r2, tt)
    /\ same_magnitude r1 r2
    /\ ~ same_but_label_and_threshold r1 r2.
Proof.
  eexists _, _. split; [apply predizer_constante; reflexivity|].
  split; [apply predizer_constante; reflexivity|].
  split; [repeat split|].
  intros [_ Hctx]. discriminate Hctx.
Qed.

(** C6, as amended — Confidence tag.  Whenever the model returns an array
    whose cell [[0][1]] is [p], the call returns a result with that
    probability whose confidence is 'Alta' exactly when the binary64
    comparison [abs (p - 0.5) > 0.3] holds and 'Moderada' exactly when it
    does not; when the computed distance equals 0.3, as it does for
    [p = 0.2], the confidence is 'Moderada'.  For [p = 0.8] the computed
    distance is not 0.3 but above it, and the confidence is 'Alta'.  The
    threshold and the context have no part in it. *)
Theorem confidence_tag {World}
    dados (modelo : Modelo World) scaler cols threshold contexto w
    df norm w1 proba w2 row p :
  pd_DataFrame [dados] cols = inr df ->
  transform scaler df w = (inr norm, w1) ->
  predict_proba modelo norm w1 = (inr proba, w2) ->
  proba !! 0%nat = Some row -> row !! 1%nat = Some p ->
  exists r,
    predizer_diabetes dados modelo scaler cols threshold contexto w = (inr r, w2)
    /\ probabilidade r = p
    /\ (confianca r = "Alta" <-> (abs (p - 0.5) >? 0.3)%float = true)
    /\ (confianca r = "Moderada" <-> (abs (p - 0.5) >? 0.3)%float = false)
    /\ ((abs (p - 0.5) =? 0.3)%float = true -> confianca r = "Moderada")
    /\ (p = 0.2%float ->
        (abs (p - 0.5) =? 0.3)%float = true /\ confianca r = "Moderada")
    /\ (p = 0.8%float ->
        (abs (p - 0.5) =? 0.3)%float = false /\ confianca r = "Alta")
    /\ (forall threshold' contexto',
          exists r',
            predizer_diabetes dados modelo scaler cols threshold' contexto' w
            = (inr r', w2)
            /\ confianca r' = confianca r).
Proof.
  intros Hdf Hs Hm Hrow Hp.
  exists (registro threshold contexto p).
  split; [eapply predizer_diabetes_of_model; eassumption|].
  cbn [confianca probabilidade registro].
  split; [reflexivity|].
  split; [destruct (abs (p - 0.5) >? 0.3)%float; split; (reflexivity || discriminate)|].
  split; [destruct (abs (p - 0.5) >? 0.3)%float; split; (reflexivity || discriminate)|].
  split.
  { intros Heq. apply F64Facts.eqb_ltb_false in Heq.
    fold (FloatCmp.gtb (abs (p - 0.5)) 0.3) in Heq. rewrite Heq. reflexivity. }
  split; [intros ->; split; reflexivity|].
  split; [intros ->; split; reflexivity|].
  intros threshold' contexto'. exists (registro threshold' contexto' p).
  split; [eapply predizer_diabetes_of_model; eassumption|reflexivity].
Qed.

Lemma confidence_tag_witness :
  exists r,
    predizer_diabetes paciente_B (modelo_constante 0.2) scaler_identidade
      feature_columns_pima (Some 0.9%float) (Some "preventiva") tt = (inr r, tt)
    /\ probabilidade r = 0.2%float
    /\ confianca r = "Moderada".
Proof.
  destruct (confidence_tag paciente_B (modelo_constante 0.2) scaler_identidade
              feature_columns_pima (Some 0.9%float) (Some "preventiva") tt
              {| columns := feature_columns_pima; values := [paciente_B] |}
              [paciente_B] tt [[1 - 0.2; 0.2]%float] tt [1 - 0.2; 0.2]%float 0.2
              eq_refl eq_refl eq_refl eq_refl eq_refl)
    as (r & Hrun & Hp & _ & _ & _ & H02 & _).
  exists r. split; [exact Hrun|]. split; [exact Hp|]. apply H02. reflexivity.
Defined.

(** C6, as stated, fails at [p = 0.8]: the claim takes it for a boundary
    case that yields 'Moderada', but the result for the probability 0.8 has
    the confidence 'Alta'. *)
Lemma confidence_high_at_08 :
  exists r,
    predizer_diabetes paciente_C (modelo_constante 0.8) scaler_identidade
      feature_columns_pima None None tt = (inr r, tt)
    /\ probabilidade r = 0.8%float
    /\ confianca r = "Alta"
    /\ confianca r <> "Moderada".
Proof.
  eexists. split; [apply predizer_constante; reflexivity|].
  split; [reflexivity|]. split; [reflexivity|]. discriminate.
Qed.

(** The binary64 number written 0.8 lies above 4/5, and the one written 0.3
    below 3/10: the probability 0.8 is farther than 0.3 from 0.5 in exact
    arithmetic too. *)
Example float_08_above_four_fifths :
  Prim2SF 0.8 = S754_finite false 7205759403792794 (-53)
  /\ Prim2SF 0.3 = S754_finite false 5404319552844595 (-54)
  /\ (4 * 2 ^ 53 < 5 * 7205759403792794)%Z
  /\ (10 * 5404319552844595 < 3 * 2 ^ 54)%Z.
Proof. repeat split. Qed.

(** C7 — Determinism.  With a pure scaler and a pure model, the outcome of a
    call does not depend on the world it runs in and the call leaves the
    world unchanged; so a second call, right after the first, returns the
    identical outcome. *)
Theorem determinism {World}
    dados (modelo : Modelo World) scaler cols threshold contexto :
  pure_call (transform scaler) -> pure_call (predict_proba modelo) ->
  (forall w1 w2,
      (predizer_diabetes dados modelo scaler cols threshold contexto w1).1
      = (predizer_diabetes dados modelo scaler cols threshold contexto w2).1
      /\ (predizer_diabetes dados modelo scaler cols threshold contexto w1).2 = w1)
  /\ (forall w,
      let first := predizer_diabetes dados modelo scaler cols threshold contexto w in
      predizer_diabetes dados modelo scaler cols threshold contexto first.2 = first).
Proof.
  intros Hs Hm.
  assert (Hall : forall w1 w2,
      (predizer_diabetes dados modelo scaler cols threshold contexto w1).1
      = (predizer_diabetes dados modelo scaler cols threshold contexto w2).1
      /\ (predizer_diabetes dados modelo scaler cols threshold contexto w1).2 = w1).
  { intros w1 w2. rewrite !predizer_diabetes_split.
    destruct (probabilidade_de_pure dados modelo scaler cols Hs Hm w1 w2) as [H1 H2].
    destruct (probabilidade_de dados modelo scaler cols w1) as [[e1|p1] u1],
             (probabilidade_de dados modelo scaler cols w2) as [[e2|p2] u2];
      cbn [fst snd] in H1, H2 |- *; try discriminate; subst u1;
      (split; [congruence|reflexivity]). }
  split; [exact Hall|].
  intros w first.
  destruct (Hall w w) as [_ Hw]. fold first in Hw. rewrite Hw.
  reflexivity.
Qed.

Lemma determinism_witness :
  predizer_diabetes paciente_B (modelo_constante 0.52) scaler_identidade
    feature_columns_pima None (Some "consulta_medica") 0%nat
  = predizer_diabetes paciente_B (modelo_constante 0.52) scaler_identidade
      feature_columns_pima None (Some "consulta_medica")
      (predizer_diabetes paciente_B (modelo_constante 0.52) scaler_identidade
         feature_columns_pima None (Some "consulta_medica") 0%nat).2.
Proof.
  symmetry.
  apply (determinism paciente_B (modelo_constante 0.52) scaler_identidade
           feature_columns_pima None (Some "consulta_medica")
           pure_scaler_identidade (pure_modelo_constante 0.52)).
Defined.

(** Purity is needed: a model that counts its calls answers two
    consecutive identical calls differently. *)
Example determinism_needs_purity :
  exists r1 r2 : resultado,
    predizer_diabetes paciente_B modelo_alternante scaler_identidade
      feature_columns_pima None None 0%nat = (inr r1, 1%nat)
    /\ predizer_diabetes paciente_B modelo_alternante scaler_identidade
      feature_columns_pima None None 1%nat = (inr r2, 2%nat)
    /\ predicao r1 = "DIABETES" /\ predicao r2 = "NÃO-DIABETES".
Proof.
  exists (registro None None 0.9), (registro None None 0.1).
  split; [rewrite predizer_diabetes_split; reflexivity|].
  split; [rewrite predizer_diabetes_split; reflexivity|].
  cbn [predicao registro]. rewrite limiar_consulta_medica || idtac.
  unfold limiar. cbn [from_option id]. rewrite lookup_consulta_medica.
  split; reflexivity.
Qed.

(** C8 — Label monotonicity.  From the same world, vector, model and scaler:
    a result that is positive at some threshold is positive at every lower
    threshold; so positive under 'preventiva' (0.60) implies positive under
    'consulta_medica' (0.45), which implies positive under 'triagem' (0.35). *)
Theorem label_monotone_in_threshold {World}
    dados (modelo : Modelo World) scaler cols w :
  (forall t1 c1 t2 c2 r1 w1 r2 w2,
      predizer_diabetes dados modelo scaler cols t1 c1 w = (inr r1, w1) ->
      predizer_diabetes dados modelo scaler cols t2 c2 w = (inr r2, w2) ->
      (threshold_usado r1 <=? threshold_usado r2)%float = true ->
      predicao r2 = "DIABETES" -> predicao r1 = "DIABETES")
  /\ (forall t1 t2 t3 r1 w1 r2 w2 r3 w3,
      predizer_diabetes dados modelo scaler cols t1 (Some "triagem") w
      = (inr r1, w1) ->
      predizer_diabetes dados modelo scaler cols t2 (Some "consulta_medica") w
      = (inr r2, w2) ->
      predizer_diabetes dados modelo scaler cols t3 (Some "preventiva") w
      = (inr r3, w3) ->
      (predicao r3 = "DIABETES" -> predicao r2 = "DIABETES")
      /\ (predicao r2 = "DIABETES" -> predicao r1 = "DIABETES")).
Proof.
  assert (Hmono : forall t1 c1 t2 c2 r1 w1 r2 w2,
      predizer_diabetes dados modelo scaler cols t1 c1 w = (inr r1, w1) ->
      predizer_diabetes dados modelo scaler cols t2 c2 w = (inr r2, w2) ->
      (threshold_usado r1 <=? threshold_usado r2)%float = true ->
      predicao r2 = "DIABETES" -> predicao r1 = "DIABETES").
  { intros t1 c1 t2 c2 r1 w1 r2 w2 H1 H2.
    apply predizer_diabetes_inr in H1 as (p1 & Hp1 & ->).
    apply predizer_diabetes_inr in H2 as (p2 & Hp2 & ->).
    rewrite Hp1 in Hp2. injection Hp2 as <- <-.
    cbn [threshold_usado predicao registro]. intros Hle.
    destruct (p1 >=? limiar t2 c2)%float eqn:H2; [intros _|discriminate].
    unfold FloatCmp.geb in *.
    rewrite (F64Facts.leb_trans _ _ _ Hle H2). reflexivity. }
  split; [exact Hmono|].
  intros t1 t2 t3 r1 w1 r2 w2 r3 w3 H1 H2 H3. split.
  - apply (Hmono _ _ _ _ _ _ _ _ H2 H3).
    apply predizer_diabetes_inr in H2 as (p2 & _ & ->).
    apply predizer_diabetes_inr in H3 as (p3 & _ & ->).
    cbn [threshold_usado registro].
    rewrite limiar_consulta_medica, limiar_preventiva. reflexivity.
  - apply (Hmono _ _ _ _ _ _ _ _ H1 H2).
    apply predizer_diabetes_inr in H1 as (p1 & _ & ->).
    apply predizer_diabetes_inr in H2 as (p2 & _ & ->).
    cbn [threshold_usado registro].
    rewrite limiar_triagem, limiar_consulta_medica. reflexivity.
Qed.

Lemma label_monotone_in_threshold_witness :
  predicao (registro None (Some "preventiva") 0.7) = "DIABETES"
  /\ predicao (registro None (Some "consulta_medica") 0.7) = "DIABETES".
Proof.
  assert (Hpre : predicao (registro None (Some "preventiva") 0.7) = "DIABETES").
  { cbn [predicao registro]. rewrite limiar_preventiva. reflexivity. }
  split; [exact Hpre|].
  refine (proj1 (proj2 (label_monotone_in_threshold paciente_B (modelo_constante 0.7)
                          scaler_identidade feature_columns_pima tt)
                   None None None _ tt _ tt _ tt _ _ _) Hpre);
    apply predizer_constante; reflexivity.
Defined.

(** C9 — Confidence and tier.  In every result, confidence 'Alta' comes
    only with the tiers MUITO ALTO and MUITO BAIXO; the tiers ALTO, MODERADO
    and BAIXO always carry confidence 'Moderada'. *)
Theorem confidence_tier_invariant {World}
    dados (modelo : Modelo World) scaler cols threshold contexto w r w' :
  predizer_diabetes dados modelo scaler cols threshold contexto w = (inr r, w') ->
  (confianca r = "Alta" ->
     nivel_risco r = "🔴 MUITO ALTO" \/ nivel_risco r = "💚 MUITO BAIXO")
  /\ (nivel_risco r = "🟠 ALTO" \/ nivel_risco r = "🟡 MODERADO"
      \/ nivel_risco r = "🟢 BAIXO" ->
      confianca r = "Moderada").
Proof.
  intros H. apply predizer_diabetes_inr in H as (p & _ & ->).
  cbn [confianca nivel_risco registro]. unfold interpretar_risco.
  destruct (p >=? 0.8)%float eqn:H8; cbn [fst].
  { split; [intros _; left; reflexivity|]. intros [|[|]]; discriminate. }
  assert (Hband : (p >=? 0.2)%float = true ->
                  (abs (p - 0.5) >? 0.3)%float = false).
  { intros H2. apply F64Facts.confidence_band; assumption. }
  destruct (p >=? 0.6)%float eqn:H6; cbn [fst];
    [rewrite Hband by F64Facts.float_order;
     split; [discriminate|reflexivity]|].
  destruct (p >=? 0.4)%float eqn:H4; cbn [fst];
    [rewrite Hband by F64Facts.float_order;
     split; [discriminate|reflexivity]|].
  destruct (p >=? 0.2)%float eqn:H2; cbn [fst];
    [rewrite Hband by reflexivity;
     split; [discriminate|reflexivity]|].
  split; [intros _; right; reflexivity|]. intros [|[|]]; discriminate.
Qed.

Lemma confidence_tier_invariant_witness :
  nivel_risco (registro None None 0.83) = "🔴 MUITO ALTO"
  \/ nivel_risco (registro None None 0.83) = "💚 MUITO BAIXO".
Proof.
  apply (confidence_tier_invariant paciente_C (modelo_constante 0.83)
           scaler_identidade feature_columns_pima None None tt _ tt).
  - apply predizer_constante. reflexivity.
  - reflexivity.
Defined.

(** C10 — Totality of the tier classifier.  [interpretar_risco] returns one
    of the five pairs for every float, in [0, 1] or not: anything [>= 0.8]
    is MUITO ALTO and anything [< 0.2] is MUITO BAIXO, as for 1.5, positive
    infinity, -0.3 and negative infinity. *)
Theorem interpretar_risco_total (p : float) :
  In (interpretar_risco p) niveis
  /\ ((p >=? 0.8)%float = true -> interpretar_risco p = muito_alto)
  /\ ((p <? 0.2)%float = true -> interpretar_risco p = muito_baixo)
  /\ interpretar_risco 1.5 = muito_alto
  /\ interpretar_risco infinity = muito_alto
  /\ interpretar_risco (-0.3) = muito_baixo
  /\ interpretar_risco neg_infinity = muito_baixo.
Proof.
  split; [|split; [|split; [|repeat split]]].
  - unfold interpretar_risco, niveis, muito_alto, alto, moderado, baixo, muito_baixo.
    destruct (p >=? 0.8)%float; [cbn [In]; tauto|].
    destruct (p >=? 0.6)%float; [cbn [In]; tauto|].
    destruct (p >=? 0.4)%float; [cbn [In]; tauto|].
    destruct (p >=? 0.2)%float; cbn [In]; tauto.
  - intros H. unfold interpretar_risco. rewrite H. reflexivity.
  - intros H. unfold interpretar_risco.
    replace (p >=? 0.8)%float with false by (symmetry; F64Facts.float_order).
    replace (p >=? 0.6)%float with false by (symmetry; F64Facts.float_order).
    replace (p >=? 0.4)%float with false by (symmetry; F64Facts.float_order).
    replace (p >=? 0.2)%float with false by (symmetry; F64Facts.float_order).
    reflexivity.
Qed.

(** * Further properties of the engine *)

Lemma gravidade_interpretar_risco p :
  gravidade (interpretar_risco p) =
  if (p >=? 0.8)%float then 4
  else if (p >=? 0.6)%float then 3
  else if (p >=? 0.4)%float then 2
  else if (p >=? 0.2)%float then 1 else 0.
Proof.
  unfold interpretar_risco.
  destruct (p >=? 0.8)%float; [reflexivity|].
  destruct (p >=? 0.6)%float; [reflexivity|].
  destruct (p >=? 0.4)%float; [reflexivity|].
  destruct (p >=? 0.2)%float; reflexivity.
Qed.

(** X1 — The tier is monotone in the probability: a greater probability
    never gets a milder tier. *)
Theorem tier_monotone (p q : float) :
  (p <=? q)%float = true ->
  gravidade (interpretar_risco p) <= gravidade (interpretar_risco q).
Proof.
  intros Hpq. rewrite !gravidade_interpretar_risco.
  assert (Hup : forall c, (p >=? c)%float = true -> (q >=? c)%float = true).
  { intros c Hc. exact (F64Facts.leb_trans c p q Hc Hpq). }
  destruct (p >=? 0.8)%float eqn:P8; [rewrite (Hup _ P8); lia|].
  destruct (p >=? 0.6)%float eqn:P6;
    [rewrite (Hup _ P6); destruct (q >=? 0.8)%float; lia|].
  destruct (p >=? 0.4)%float eqn:P4;
    [rewrite (Hup _ P4); destruct (q >=? 0.8)%float, (q >=? 0.6)%float; lia|].
  destruct (p >=? 0.2)%float eqn:P2;
    [rewrite (Hup _ P2);
     destruct (q >=? 0.8)%float, (q >=? 0.6)%float, (q >=? 0.4)%float; lia|].
  lia.
Qed.

Lemma tier_monotone_witness :
  gravidade (interpretar_risco 0.42) <= gravidade (interpretar_risco 0.83).
Proof. apply (tier_monotone 0.42 0.83). reflexivity. Defined.

(** X2 — Model output without a cell [0][1].  When the scaler and the model
    return but the model's array has no row, or a first row with fewer than
    two columns, the call raises [IndexError] and returns no result. *)
Theorem model_output_too_small {World}
    dados (modelo : Modelo World) scaler cols threshold contexto w norm w1 proba w2 :
  length dados = length cols ->
  transform scaler {| columns := cols; values := [dados] |} w = (inr norm, w1) ->
  predict_proba modelo norm w1 = (inr proba, w2) ->
  (proba = [] \/ exists row rest, proba = row :: rest /\ length row <= 1) ->
  predizer_diabetes dados modelo scaler cols threshold contexto w
  = (inl IndexError, w2).
Proof.
  intros Hlen Hs Hm Hsmall. rewrite predizer_diabetes_split.
  unfold probabilidade_de, bind, lift, pd_DataFrame. cbn [forallb].
  rewrite Hlen, Nat.eqb_refl. cbn [andb]. rewrite Hs, Hm.
  destruct Hsmall as [-> | (row & rest & -> & Hrow)]; [reflexivity|].
  unfold index2. cbn [lookup list_lookup].
  destruct row as [|x [|y row]]; cbn in Hrow |- *; (reflexivity || lia).
Qed.

Lemma model_output_too_small_witness :
  predizer_diabetes paciente_B (modelo_uma_coluna 0.52) scaler_identidade
    feature_columns_pima None None tt
  = (inl IndexError, tt).
Proof.
  apply (model_output_too_small paciente_B (modelo_uma_coluna 0.52) scaler_identidade
           feature_columns_pima None None tt [paciente_B] tt [[0.52%float]] tt).
  - reflexivity.
  - reflexivity.
  - reflexivity.
  - right. exists [0.52%float], []. split; [reflexivity|]. cbn. lia.
Defined.

(** X3 — Exceptions of the external objects.  An exception raised by the
    scaler leaves the call with that exception in the world the scaler
    left, so the model is not consulted; an exception raised by the model
    leaves the call with that exception. *)
Theorem external_exceptions_propagate {World}
    dados (modelo : Modelo World) scaler cols threshold contexto w :
  length dados = length cols ->
  (forall e w1,
      transform scaler {| columns := cols; values := [dados] |} w = (inl e, w1) ->
      predizer_diabetes dados modelo scaler cols threshold contexto w = (inl e, w1))
  /\ (forall norm w1 e w2,
      transform scaler {| columns := cols; values := [dados] |} w = (inr norm, w1) ->
      predict_proba modelo norm w1 = (inl e, w2) ->
      predizer_diabetes dados modelo scaler cols threshold contexto w = (inl e, w2)).
Proof.
  intros Hlen.
  assert (Hdf : pd_DataFrame [dados] cols = inr {| columns := cols; values := [dados] |}).
  { unfold pd_DataFrame. cbn [forallb]. rewrite Hlen, Nat.eqb_refl. reflexivity. }
  split.
  - intros e w1 Hs. rewrite predizer_diabetes_split.
    unfold probabilidade_de, bind, lift. rewrite Hdf, Hs. reflexivity.
  - intros norm w1 e w2 Hs Hm. rewrite predizer_diabetes_split.
    unfold probabilidade_de, bind, lift. rewrite Hdf, Hs, Hm. reflexivity.
Qed.

Lemma external_exceptions_propagate_witness :
  predizer_diabetes paciente_B modelo_alternante (scaler_falho (Raised "NotFittedError"))
    feature_columns_pima None None 0%nat
  = (inl (Raised "NotFittedError"), 0%nat).
Proof.
  apply (external_exceptions_propagate paciente_B modelo_alternante
           (scaler_falho (Raised "NotFittedError")) feature_columns_pima None None 0%nat).
  - reflexivity.
  - reflexivity.
Defined.

(** X4 — Unrecognised context with the threshold left out.  Such a call
    behaves as the call with 'consulta_medica': both fail alike, or both
    return results with the same label, the threshold 0.45 and the same
    magnitude fields (only the echoed context differs). *)
Theorem unknown_context_is_consulta_medica {World}
    dados (modelo : Modelo World) scaler cols (c : string) w :
  c <> "triagem" -> c <> "consulta_medica" -> c <> "preventiva" ->
  match predizer_diabetes dados modelo scaler cols None (Some c) w,
        predizer_diabetes dados modelo scaler cols None (Some "consulta_medica") w with
  | (inr r1, w1), (inr r2, w2) =>
      predicao r1 = predicao r2
      /\ threshold_usado r1 = 0.45%float /\ threshold_usado r2 = 0.45%float
      /\ same_magnitude r1 r2 /\ contexto r1 = c /\ w1 = w2
  | (inl e1, w1), (inl e2, w2) => e1 = e2 /\ w1 = w2
  | _, _ => False
  end.
Proof.
  intros H1 H2 H3. rewrite !predizer_diabetes_split.
  destruct (probabilidade_de dados modelo scaler cols w) as [[e|p] w1];
    [split; reflexivity|].
  assert (Hc : limiar None (Some c) = 0.45%float).
  { unfold limiar. cbn [from_option id]. rewrite lookup_other by assumption. reflexivity. }
  cbn [predicao threshold_usado contexto registro from_option id].
  rewrite Hc, limiar_consulta_medica. repeat split.
Qed.

Lemma unknown_context_is_consulta_medica_witness :
  predicao (registro None (Some "emergencia") 0.52)
  = predicao (registro None (Some "consulta_medica") 0.52).
Proof.
  pose proof (unknown_context_is_consulta_medica paciente_B (modelo_constante 0.52)
                scaler_identidade feature_columns_pima "emergencia" tt
                ltac:(discriminate) ltac:(discriminate) ltac:(discriminate)) as H.
  rewrite !predizer_constante in H by reflexivity.
  exact (proj1 H).
Defined.

(** The threshold of a call is one of the table when the context is
    recognised or the threshold argument is left out. *)
Lemma limiar_in_table threshold contexto :
  threshold = None \/ is_Some (thresholds_contexto !! default "consulta_medica" contexto) ->
  limiar threshold contexto = 0.35%float
  \/ limiar threshold contexto = 0.45%float
  \/ limiar threshold contexto = 0.60%float.
Proof.
  unfold limiar, thresholds_contexto.
  set (c := default "consulta_medica" contexto).
  destruct (decide (c = "triagem")) as [->|N1];
    [rewrite lookup_insert_eq; auto|rewrite lookup_insert_ne by congruence].
  destruct (decide (c = "consulta_medica")) as [->|N2];
    [rewrite lookup_insert_eq; auto|rewrite lookup_insert_ne by congruence].
  destruct (decide (c = "preventiva")) as [->|N3];
    [rewrite lookup_insert_eq; auto|rewrite lookup_insert_ne by congruence].
  rewrite lookup_empty. intros [-> | [x Hx]]; [auto|discriminate].
Qed.

(** X5 — Label against tier.  With a threshold of the table (recognised
    context, or threshold argument left out), a result in the tier ALTO or
    MUITO ALTO is labelled 'DIABETES' and a result in the tier MUITO BAIXO
    is labelled 'NÃO-DIABETES'. *)
Theorem label_agrees_with_extreme_tiers {World}
    dados (modelo : Modelo World) scaler cols threshold contexto w r w' :
  predizer_diabetes dados modelo scaler cols threshold contexto w = (inr r, w') ->
  threshold = None \/ is_Some (thresholds_contexto !! default "consulta_medica" contexto) ->
  (nivel_risco r = "🔴 MUITO ALTO" \/ nivel_risco r = "🟠 ALTO" ->
   predicao r = "DIABETES")
  /\ (nivel_risco r = "💚 MUITO BAIXO" -> predicao r = "NÃO-DIABETES").
Proof.
  intros H Htab. apply predizer_diabetes_inr in H as (p & _ & ->).
  cbn [predicao nivel_risco registro].
  pose proof (limiar_in_table threshold contexto Htab) as Ht.
  unfold interpretar_risco.
  destruct (p >=? 0.8)%float eqn:H8; destruct (p >=? 0.6)%float eqn:H6;
    destruct (p >=? 0.4)%float eqn:H4; destruct (p >=? 0.2)%float eqn:H2;
    cbn [fst]; (split; [intros [?|?]|intros ?]); try discriminate;
    destruct Ht as [-> | [-> | ->]];
    match goal with
    | |- (if ?b then _ else _) = "DIABETES" =>
        replace b with true by (symmetry; F64Facts.float_order); reflexivity
    | |- (if ?b then _ else _) = _ =>
        replace b with false by (symmetry; F64Facts.float_order); reflexivity
    end.
Qed.

Lemma label_agrees_with_extreme_tiers_witness :
  predicao (registro None (Some "preventiva") 0.61) = "DIABETES".
Proof.
  apply (label_agrees_with_extreme_tiers paciente_B (modelo_constante 0.61)
           scaler_identidade feature_columns_pima None (Some "preventiva") tt _ tt).
  - apply predizer_constante. reflexivity.
  - left. reflexivity.
  - right. reflexivity.
Defined.

(** X6 — The decision table of the three contexts.  Under 'preventiva'
    the label is 'DIABETES' exactly for the tiers ALTO and MUITO ALTO; under
    'triagem' the tier MODERADO is always labelled 'DIABETES'; under
    'consulta_medica' the tier BAIXO is always labelled 'NÃO-DIABETES'. *)
Theorem decision_table {World}
    dados (modelo : Modelo World) scaler cols threshold contexto w r w' :
  predizer_diabetes dados modelo scaler cols threshold contexto w = (inr r, w') ->
  (contexto = Some "preventiva" ->
     (predicao r = "DIABETES" <->
      nivel_risco r = "🔴 MUITO ALTO" \/ nivel_risco r = "🟠 ALTO"))
  /\ (contexto = Some "triagem" ->
      nivel_risco r = "🟡 MODERADO" -> predicao r = "DIABETES")
  /\ (contexto = Some "consulta_medica" \/ contexto = None ->
      nivel_risco r = "🟢 BAIXO" -> predicao r = "NÃO-DIABETES").
Proof.
  intros H. apply predizer_diabetes_inr in H as (p & _ & ->).
  cbn [predicao nivel_risco registro]. unfold interpretar_risco.
  split; [|split].
  - intros ->. rewrite limiar_preventiva. fold (FloatCmp.geb p 0.6).
    change 0.60%float with 0.6%float.
    destruct (p >=? 0.8)%float eqn:H8; cbn [fst].
    + replace (p >=? 0.6)%float with true by (symmetry; F64Facts.float_order).
      split; auto.
    + destruct (p >=? 0.6)%float eqn:H6; cbn [fst]; [split; auto|].
      destruct (p >=? 0.4)%float, (p >=? 0.2)%float; cbn [fst];
        (split; [discriminate|intros [?|?]; discriminate]).
  - intros ->. rewrite limiar_triagem.
    destruct (p >=? 0.8)%float eqn:H8; destruct (p >=? 0.6)%float eqn:H6;
      destruct (p >=? 0.4)%float eqn:H4; destruct (p >=? 0.2)%float eqn:H2;
      cbn [fst]; intros ?; try discriminate.
    all: replace (p >=? 0.35)%float with true by (symmetry; F64Facts.float_order).
    all: reflexivity.
  - intros Hc.
    assert (Ht : limiar threshold contexto = 0.45%float).
    { destruct Hc as [-> | ->]; [apply limiar_consulta_medica|].
      unfold limiar. cbn [from_option id]. rewrite lookup_consulta_medica. reflexivity. }
    rewrite Ht.
    destruct (p >=? 0.8)%float eqn:H8; destruct (p >=? 0.6)%float eqn:H6;
      destruct (p >=? 0.4)%float eqn:H4; destruct (p >=? 0.2)%float eqn:H2;
      cbn [fst]; intros ?; try discriminate.
    all: replace (p >=? 0.45)%float with false by (symmetry; F64Facts.float_order).
    all: reflexivity.
Qed.

Lemma decision_table_witness :
  predicao (registro None (Some "triagem") 0.42) = "DIABETES".
Proof.
  refine (proj1 (proj2 (decision_table paciente_B (modelo_constante 0.42)
                          scaler_identidade feature_columns_pima None (Some "triagem")
                          tt (registro None (Some "triagem") 0.42) tt _))
            eq_refl eq_refl).
  apply predizer_constante. reflexivity.
Defined.

Lemma fkey_nan p : is_nan p = true -> Prim2SF p = S754_nan.
Proof.
  rewrite F64Facts.is_nan_key. unfold F64.fkey.
  destruct (Prim2SF p) as [[]|[]| |[] m e]; cbn; (discriminate || reflexivity).
Qed.

(** X7 — A NaN from the model.  If the probability taken from the model is
    NaN, every comparison fails: whatever the threshold and the context,
    the result is labelled 'NÃO-DIABETES', tier MUITO BAIXO, confidence
    'Moderada'. *)
Theorem nan_probability {World}
    dados (modelo : Modelo World) scaler cols threshold contexto w r w' :
  predizer_diabetes dados modelo scaler cols threshold contexto w = (inr r, w') ->
  is_nan (probabilidade r) = true ->
  predicao r = "NÃO-DIABETES"
  /\ nivel_risco r = "💚 MUITO BAIXO"
  /\ confianca r = "Moderada".
Proof.
  intros H. apply predizer_diabetes_inr in H as (p & _ & ->).
  cbn [predicao probabilidade nivel_risco confianca registro]. intros Hnan.
  assert (Hge : forall c, (p >=? c)%float = false).
  { intros c. unfold FloatCmp.geb. rewrite F64Facts.leb_key.
    unfold F64.fkey at 2. rewrite (fkey_nan p Hnan).
    destruct (F64.fkey c); reflexivity. }
  assert (Hgt : (abs (p - 0.5) >? 0.3)%float = false).
  { unfold FloatCmp.gtb. rewrite F64Facts.ltb_key. unfold F64.fkey at 2.
    rewrite abs_spec, sub_spec, (fkey_nan p Hnan).
    destruct (F64.fkey 0.3); reflexivity. }
  unfold interpretar_risco. rewrite !Hge, Hgt. repeat split.
Qed.

Lemma nan_probability_witness :
  predicao (registro (Some 0.1%float) (Some "triagem") nan) = "NÃO-DIABETES".
Proof.
  apply (nan_probability paciente_B (modelo_constante nan) scaler_identidade
           feature_columns_pima (Some 0.1%float) (Some "triagem") tt _ tt).
  - apply predizer_constante. reflexivity.
  - reflexivity.
Defined.

(** * Rounding outside the band *)

Module F64Outer.
Import F64 F64Facts.
Local Open Scope Z_scope.

Lemma shr_1_m r : 0 <= shr_m r -> shr_m (shr_1 r) = shr_m r / 2 /\ 0 <= shr_m (shr_1 r).
Proof.
  destruct r as [m b s]. cbn [shr_m]. intros Hm.
  destruct m as [|[p|p|]|p]; cbn [shr_1 shr_m].
  - split; [reflexivity|lia].
  - split; [|lia]. rewrite Pos2Z.inj_xI. apply Z.div_unique with (r := 1); lia.
  - split; [|lia]. rewrite Pos2Z.inj_xO. apply Z.div_unique with (r := 0); lia.
  - split; [reflexivity|lia].
  - lia.
Qed.

Lemma pow2_xO n : 2 ^ Zpos n~0 = 2 ^ Zpos n * 2 ^ Zpos n.
Proof.
  change (Zpos n~0) with (2 * Zpos n). replace (2 * Zpos n) with (Zpos n + Zpos n) by lia.
  apply Z.pow_add_r; lia.
Qed.

Lemma pow2_xI n : 2 ^ Zpos n~1 = 2 * (2 ^ Zpos n * 2 ^ Zpos n).
Proof.
  change (Zpos n~1) with (2 * Zpos n + 1). replace (2 * Zpos n + 1) with (1 + (Zpos n + Zpos n)) by lia.
  rewrite Z.pow_add_r, Z.pow_add_r by lia. reflexivity.
Qed.

Lemma iter_shr_1_m n : forall r,
  0 <= shr_m r ->
  shr_m (SpecFloat.iter_pos shr_1 n r) = shr_m r / 2 ^ Zpos n
  /\ 0 <= shr_m (SpecFloat.iter_pos shr_1 n r).
Proof.
  induction n as [n IH|n IH|]; intros r Hr; cbn [SpecFloat.iter_pos].
  - destruct (shr_1_m r Hr) as [E1 N1].
    destruct (IH _ N1) as [E2 N2]. destruct (IH _ N2) as [E3 N3].
    split; [|exact N3]. rewrite E3, E2, E1, pow2_xI.
    assert (0 < 2 ^ Zpos n) by (apply Z.pow_pos_nonneg; lia).
    rewrite !Z.div_div by lia. reflexivity.
  - destruct (IH _ Hr) as [E2 N2]. destruct (IH _ N2) as [E3 N3].
    split; [|exact N3]. rewrite E3, E2, pow2_xO.
    assert (0 < 2 ^ Zpos n) by (apply Z.pow_pos_nonneg; lia).
    rewrite !Z.div_div by lia. reflexivity.
  - destruct (shr_1_m r Hr) as [E1 N1]. split; [|exact N1]. rewrite E1. reflexivity.
Qed.

Lemma round_nearest_even_range m l :
  m <= round_nearest_even m l <= m + 1.
Proof.
  destruct l as [|[]]; cbn [round_nearest_even]; try lia.
  destruct (Z.even m); lia.
Qed.

Lemma binary_round_54_even s k e :
  2 ^ 53 <= Zpos k <= 2 ^ 54 - 2 -> -1074 <= e + 1 <= 971 ->
  exists m, binary_round prec emax s k e = S754_finite s m (e + 1)
            /\ Zpos k - 1 <= 2 * Zpos m <= Zpos k + 1
            /\ (2 * Zpos m <> Zpos k -> Z.even (Zpos m) = true).
Proof.
  intros Hk He.
  assert (Hd : Zpos (digits2_pos k) = 54) by (apply digits2_pos_unique; lia).
  unfold binary_round. rewrite Hd, fexp_above by lia.
  unfold shl_align. replace (54 + e - 53 - e) with 1 by lia.
  unfold binary_round_aux.
  replace (shr_fexp prec emax (Zpos k) e loc_Exact)
    with (shr_1 {| shr_m := Zpos k; shr_r := false; shr_s := false |}, e + 1).
  2:{ unfold shr_fexp. cbn [Zdigits2]. rewrite Hd, fexp_above by lia.
      replace (54 + e - 53 - e) with 1 by lia. reflexivity. }
  destruct k as [p|p|];
    cbn [shr_1 orb shr_m loc_of_shr_record round_nearest_even]; [| |lia].
  - destruct (Z.even (Zpos p)) eqn:Hev.
    + rewrite shr_fexp_canonical by (try apply digits2_pos_unique; lia).
      cbn [shr_m]. exists p. rewrite exponent_in_range by lia.
      split; [reflexivity|]. split; [lia|]. intros _. exact Hev.
    + change (Zpos p + 1) with (Zpos (p + 1)).
      rewrite shr_fexp_canonical by (try apply digits2_pos_unique; lia).
      cbn [shr_m]. exists (p + 1)%positive. rewrite exponent_in_range by lia.
      split; [reflexivity|]. split; [lia|]. intros _.
      change (Zpos (p + 1)) with (Z.succ (Zpos p)) || rewrite Pos2Z.inj_add.
      rewrite Z.even_succ, <- Z.negb_even, Hev. reflexivity.
  - rewrite shr_fexp_canonical by (try apply digits2_pos_unique; lia).
    cbn [shr_m]. exists p. rewrite exponent_in_range by lia.
    split; [reflexivity|]. split; [lia|]. intros H. lia.
Qed.

(** A value just below one half, given with more bits than fit: it rounds
    into [3/8, 1/2]. *)
Lemma binary_round_near_half s k e :
  -1074 <= e <= -56 ->
  2 ^ (-1 - e) - 2 ^ 53 <= Zpos k < 2 ^ (-1 - e) ->
  exists m' e', binary_round prec emax s k e = S754_finite s m' e'
                /\ ((e' = -54 /\ 2 ^ 53 - 2 ^ 51 <= Zpos m') \/ e' = -53).
Proof.
  intros He Hk.
  destruct (-54 - e) as [|q|q] eqn:Hq; try lia.
  assert (Hq2 : 2 <= Zpos q) by lia.
  set (P := 2 ^ Zpos q).
  assert (HP : 4 <= P).
  { change 4 with (2 ^ 2). apply Z.pow_le_mono_r; lia. }
  assert (Hpow : 2 ^ (-1 - e) = 2 ^ 53 * P).
  { replace (-1 - e) with (53 + Zpos q) by lia. apply Z.pow_add_r; lia. }
  rewrite Hpow in Hk.
  assert (Hd : Zpos (digits2_pos k) = 53 + Zpos q).
  { apply digits2_pos_unique; [|lia].
    replace (53 + Zpos q - 1) with (52 + Zpos q) by lia.
    rewrite !Z.pow_add_r by lia. fold P. lia. }
  unfold binary_round. rewrite Hd, fexp_above by lia.
  unfold shl_align. replace (53 + Zpos q + e - 53 - e) with (Zpos q) by lia.
  unfold binary_round_aux.
  replace (shr_fexp prec emax (Zpos k) e loc_Exact)
    with (SpecFloat.iter_pos shr_1 q {| shr_m := Zpos k; shr_r := false; shr_s := false |},
          -54).
  2:{ unfold shr_fexp. cbn [Zdigits2]. rewrite Hd, fexp_above by lia.
      replace (53 + Zpos q + e - 53 - e) with (Zpos q) by lia.
      cbn [shr shr_record_of_loc]. f_equal. lia. }
  destruct (iter_shr_1_m q {| shr_m := Zpos k; shr_r := false; shr_s := false |})
    as [E _]; [cbn; lia|].
  cbn [shr_m] in E. fold P in E.
  set (r1 := SpecFloat.iter_pos shr_1 q _) in *.
  assert (Hm1 : 2 ^ 53 - 2 ^ 51 <= shr_m r1 < 2 ^ 53).
  { rewrite E. split.
    - apply Z.div_le_lower_bound; lia.
    - apply Z.div_lt_upper_bound; lia. }
  pose proof (round_nearest_even_range (shr_m r1) (loc_of_shr_record r1)) as Hr.
  destruct (round_nearest_even (shr_m r1) (loc_of_shr_record r1)) as [|m2|m2] eqn:Hm2;
    [lia| |lia].
  destruct (Z.eq_dec (Zpos m2) (2 ^ 53)) as [Heq|Hne].
  - injection Heq as ->. exists 4503599627370496%positive, (-53). split; [reflexivity|].
    right. reflexivity.
  - rewrite shr_fexp_canonical by (try apply digits2_pos_unique; lia).
    cbn [shr_m]. rewrite exponent_in_range by lia.
    exists m2, (-54). split; [reflexivity|]. left. split; [reflexivity|lia].
Qed.

Lemma sub_half_aligned m e :
  e <= -54 ->
  SF64sub (S754_finite false m e) c05
  = binary_normalize prec emax (Zpos m - 2 ^ (-1 - e)) e false.
Proof.
  intros He. unfold SF64sub, SFsub, c05. rewrite Z.min_l by lia.
  unfold shl_align. rewrite Z.sub_diag.
  destruct (e - -53) as [|q|q] eqn:Hq; try lia.
  cbn [fst cond_Zopp]. rewrite iter_xO_value. f_equal.
  replace (-1 - e) with (52 + Zpos q) by lia.
  rewrite Z.pow_add_r by lia. reflexivity.
Qed.

Lemma valid_finite_range m e :
  valid_binary (S754_finite false m e) = true ->
  -1074 <= e /\ Zpos m < 2 ^ 53.
Proof.
  cbn [SpecFloat.valid_binary].
  unfold bounded, canonical_mantissa, fexp, SpecFloat.emin.
  intros H. apply andb_prop in H as [H _]. apply Z.eqb_eq in H.
  unfold prec, emax in H.
  pose proof (digits2_pos_bounds m) as [_ Hb].
  split; [lia|].
  assert (Hd : Zpos (digits2_pos m) <= 53) by lia.
  assert (2 ^ Zpos (digits2_pos m) <= 2 ^ 53) by (apply Z.pow_le_mono_r; lia).
  lia.
Qed.

(** Outside the band, for a probability: [0 <= p < 0.2] or [0.8 <= p <= 1].
    The keys are those of the literals [0], [0.2], [0.8], [1] and [0.3]. *)
Lemma sub_half_outer x a :
  valid_binary x = true -> key x = Some a ->
  (lex_le (0, 0, 0) a /\ lex_lt a (1, -55, 7205759403792794))
  \/ (lex_le (1, -53, 7205759403792794) a /\ lex_le a (1, -52, 4503599627370496)) ->
  exists b, key (SFabs (SF64sub x c05)) = Some b
            /\ lex_lt (1, -54, 5404319552844595) b.
Proof.
  intros Hv Hk Hcase.
  destruct x as [[]|[]| |[] m e]; cbn in Hk; try discriminate;
    injection Hk as <-; unfold lex_le, lex_lt in Hcase; cbn [fst snd] in Hcase;
    try lia.
  - (* -0 *) eexists; split; [reflexivity|]. unfold lex_lt; cbn [fst snd]. lia.
  - (* +0 *) eexists; split; [reflexivity|]. unfold lex_lt; cbn [fst snd]. lia.
  - destruct (valid_finite_range m e Hv) as [Hemin Hm53].
    unfold lex_lt; cbn [fst snd].
    destruct Hcase as [[_ Hlo] | [Hlo Hhi]].
    + (* 0 < p < 0.2 *)
      assert (He : e <= -55) by lia.
      rewrite sub_half_aligned by lia.
      destruct (Z.eq_dec e (-55)) as [->|Hne].
      * change (2 ^ (-1 - -55)) with 18014398509481984.
        pose proof (canonical_53 m (-55) Hv ltac:(lia)) as Hm.
        destruct (Zpos m - 18014398509481984) as [|k|k] eqn:Hk; [lia|lia|];
          cbn [binary_normalize].
        destruct (binary_round_54_even true k (-55)) as (r & -> & Hr & Hev); [lia|lia|].
        eexists; split; [reflexivity|]. cbn [fst snd].
        destruct (Z.eq_dec (Zpos r) 5404319552844595) as [E|NE]; [exfalso|lia].
        rewrite E in Hev. discriminate Hev. lia.
      * assert (Hbig : 2 ^ 54 <= 2 ^ (-2 - e)) by (apply Z.pow_le_mono_r; lia).
        assert (Hdbl : 2 ^ (-1 - e) = 2 * 2 ^ (-2 - e)).
        { replace (-1 - e) with (Z.succ (-2 - e)) by lia. apply Z.pow_succ_r. lia. }
        destruct (Zpos m - 2 ^ (-1 - e)) as [|k|k] eqn:Hk; [lia|lia|];
          cbn [binary_normalize].
        destruct (binary_round_near_half true k e) as (m' & e' & -> & Hr); [lia|lia|].
        eexists; split; [reflexivity|]. cbn [fst snd]. lia.
    + (* 0.8 <= p <= 1 *)
      assert (He : e = -53 \/ e = -52) by lia.
      destruct He as [-> | ->].
      * pose proof (canonical_53 m (-53) Hv ltac:(lia)) as Hm.
        change (SF64sub (S754_finite false m (-53)) c05)
          with (binary_normalize prec emax (Zpos m - 4503599627370496) (-53) false).
        destruct (Zpos m - 4503599627370496) as [|k|k] eqn:Hk; [lia| |lia];
          cbn [binary_normalize].
        assert (Hd : Zpos (digits2_pos k) = 52) by (apply digits2_pos_unique; lia).
        destruct (binary_round_exact false k (-53)) as (r & -> & Hr); [lia|lia|].
        eexists; split; [reflexivity|]. cbn [fst snd].
        rewrite Hd in Hr |- *. change (2 ^ (53 - 52)) with 2 in Hr. lia.
      * pose proof (canonical_53 m (-52) Hv ltac:(lia)) as Hm.
        assert (m = 4503599627370496%positive) as -> by lia.
        eexists; split; [vm_compute; reflexivity|]. cbn [fst snd]. lia.
Qed.

Lemma fkey_0 : fkey 0 = Some (0, 0, 0).
Proof. reflexivity. Qed.
Lemma fkey_1 : fkey 1 = Some (1, -52, 4503599627370496).
Proof. reflexivity. Qed.

(** [abs(p - 0.5) > 0.3] holds for every probability outside the band. *)
Lemma confidence_outer p :
  (0 <=? p)%float = true -> (p <=? 1)%float = true ->
  (p >=? 0.8)%float = true \/ (p >=? 0.2)%float = false ->
  (abs (p - 0.5) >? 0.3)%float = true.
Proof.
  unfold FloatCmp.geb, FloatCmp.gtb.
  rewrite !leb_key, ltb_key, fkey_0, fkey_1, fkey_02, fkey_03, fkey_08.
  unfold fkey at 5. rewrite abs_spec, sub_spec. change (Prim2SF 0.5) with c05.
  pose proof (Prim2SF_valid p) as Hv. unfold fkey.
  destruct (key (Prim2SF p)) as [a|] eqn:Hk; [|discriminate].
  intros H0%lex_leb_true H1%lex_leb_true Hcase.
  destruct (sub_half_outer _ _ Hv Hk) as (b & -> & Hb).
  - destruct Hcase as [H8%lex_leb_true | H2%lex_leb_false]; [right|left]; split; assumption.
  - apply lex_ltb_true. exact Hb.
Qed.
End F64Outer.

(** X8 — Confidence is decided by the tier, for probabilities.  When the
    probability lies in [0, 1], the confidence is 'Alta' exactly when the
    tier is MUITO ALTO or MUITO BAIXO (and 'Moderada' exactly for ALTO,
    MODERADO and BAIXO), rounding of [p - 0.5] included. *)
Theorem confidence_matches_extreme_tiers {World}
    dados (modelo : Modelo World) scaler cols threshold contexto w r w' :
  predizer_diabetes dados modelo scaler cols threshold contexto w = (inr r, w') ->
  (0 <=? probabilidade r)%float = true ->
  (probabilidade r <=? 1)%float = true ->
  (confianca r = "Alta" <->
   nivel_risco r = "🔴 MUITO ALTO" \/ nivel_risco r = "💚 MUITO BAIXO").
Proof.
  intros H. apply predizer_diabetes_inr in H as (p & _ & ->).
  cbn [confianca probabilidade nivel_risco registro]. intros H0 H1.
  unfold interpretar_risco.
  destruct (p >=? 0.8)%float eqn:H8; cbn [fst].
  { rewrite (F64Outer.confidence_outer p H0 H1) by (left; exact H8).
    split; [intros _; left|]; reflexivity. }
  assert (Hband : (p >=? 0.2)%float = true ->
                  (abs (p - 0.5) >? 0.3)%float = false).
  { intros H2. apply F64Facts.confidence_band; assumption. }
  destruct (p >=? 0.6)%float eqn:H6; cbn [fst];
    [rewrite Hband by F64Facts.float_order;
     split; [discriminate|intros [|]; discriminate]|].
  destruct (p >=? 0.4)%float eqn:H4; cbn [fst];
    [rewrite Hband by F64Facts.float_order;
     split; [discriminate|intros [|]; discriminate]|].
  destruct (p >=? 0.2)%float eqn:H2; cbn [fst];
    [rewrite Hband by reflexivity;
     split; [discriminate|intros [|]; discriminate]|].
  rewrite (F64Outer.confidence_outer p H0 H1) by (right; exact H2).
  split; [intros _; right|]; reflexivity.
Qed.

Lemma confidence_matches_extreme_tiers_witness :
  confianca (registro None None 0.1) = "Alta".
Proof.
  apply (confidence_matches_extreme_tiers paciente_B (modelo_constante 0.1)
           scaler_identidade feature_columns_pima None None tt _ tt).
  - apply predizer_constante. reflexivity.
  - reflexivity.
  - reflexivity.
  - right. reflexivity.
Defined.

(** * Facts about the console and the report *)

Section ConsoleFacts.
Context {W : Type}.

Lemma imprime_print (s : string) : imprime (W := W) (print s) [s].
Proof. intros c. reflexivity. Qed.

Lemma imprime_bind (m k : M (Console W) unit) l1 l2 :
  imprime m l1 -> imprime k l2 -> imprime (let* _ := m in k) (l1 ++ l2)%list.
Proof.
  intros Hm Hk c. unfold bind. rewrite Hm, Hk. cbn [stdout mundo].
  rewrite app_assoc. reflexivity.
Qed.

Lemma imprime_for_each {A} (l : list A) (body : A -> M (Console W) unit)
    (g : A -> string) :
  (forall x, imprime (body x) [g x]) -> imprime (for_each l body) (map g l).
Proof.
  intros Hbody. induction l as [|x l IH]; cbn [for_each map].
  - intros c. unfold ret. rewrite app_nil_r. destruct c; reflexivity.
  - apply (imprime_bind _ _ [g x] (map g l)); [apply Hbody|exact IH].
Qed.

Lemma imprime_bind_pre (m k : M (Console W) unit) l1 fim :
  imprime m l1 ->
  (exists corpo, imprime k (corpo ++ fim)%list) ->
  exists corpo, imprime (let* _ := m in k) (corpo ++ fim)%list.
Proof.
  intros Hm [corpo Hk]. exists (l1 ++ corpo)%list.
  rewrite <- app_assoc. apply imprime_bind; assumption.
Qed.

Lemma exibir_resultado_imprime fmt dados r cols :
  exists corpo,
    imprime (W := W) (exibir_resultado fmt dados r cols)
      (corpo
       ++ (NL ++ "📋 RECOMENDAÇÕES:")%string
          :: (if (probabilidade r >=? 0.6)%float then bloco_urgente
              else if (probabilidade r >=? 0.4)%float then bloco_monitoramento
              else bloco_prevencao)
       ++ [(NL ++ repetir "=" 70)%string])%list.
Proof.
  unfold exibir_resultado.
  do 4 (eapply imprime_bind_pre; [apply imprime_print|]).
  eapply imprime_bind_pre.
  { apply (imprime_for_each _ _
             (fun x => "   " ++ ljust fmt 20 x.1 ++ ": " ++ str_valor fmt x.2)).
    intros [label valor]. apply imprime_print. }
  do 9 (eapply imprime_bind_pre; [apply imprime_print|]).
  exists []. cbn [app].
  eapply (imprime_bind _ _ [_] _ (imprime_print _)).
  apply imprime_bind; [|apply imprime_print].
  destruct (probabilidade r >=? 0.6)%float; [|destruct (probabilidade r >=? 0.4)%float].
  - do 3 (eapply (imprime_bind _ _ [_] _ (imprime_print _))). apply imprime_print.
  - do 3 (eapply (imprime_bind _ _ [_] _ (imprime_print _))). apply imprime_print.
  - do 2 (eapply (imprime_bind _ _ [_] _ (imprime_print _))). apply imprime_print.
Qed.
End ConsoleFacts.

Lemma exibir_resultado_termina {W} fmt dados (r : resultado) cols (c : Console W)
    (bloco : list string) :
  (if (probabilidade r >=? 0.6)%float then bloco_urgente
   else if (probabilidade r >=? 0.4)%float then bloco_monitoramento
   else bloco_prevencao) = bloco ->
  (exibir_resultado fmt dados r cols c).1 = inr tt
  /\ mundo (exibir_resultado fmt dados r cols c).2 = mundo c
  /\ termina_com bloco (exibir_resultado fmt dados r cols c).2.
Proof.
  intros <-. destruct (exibir_resultado_imprime (W := W) fmt dados r cols) as [corpo H].
  rewrite (H c). cbn [fst snd stdout mundo].
  split; [reflexivity|]. split; [reflexivity|].
  exists (stdout c ++ corpo)%list. cbn [stdout]. rewrite <- app_assoc. reflexivity.
Qed.

(** X9 — The recommendations of the report follow the tier.  For a result
    of [predizer_diabetes], [exibir_resultado] never raises and ends its
    report with the urgent work-up block when the tier is MUITO ALTO or
    ALTO, the monitoring block when it is MODERADO, and the prevention
    block when it is BAIXO or MUITO BAIXO. *)
Theorem report_recommendations_follow_tier {World W}
    dados (modelo : Modelo World) scaler cols threshold contexto w r w'
    fmt dados' cols' (c : Console W) :
  predizer_diabetes dados modelo scaler cols threshold contexto w = (inr r, w') ->
  (exibir_resultado fmt dados' r cols' c).1 = inr tt
  /\ mundo (exibir_resultado fmt dados' r cols' c).2 = mundo c
  /\ (nivel_risco r = "🔴 MUITO ALTO" \/ nivel_risco r = "🟠 ALTO" ->
      termina_com bloco_urgente (exibir_resultado fmt dados' r cols' c).2)
  /\ (nivel_risco r = "🟡 MODERADO" ->
      termina_com bloco_monitoramento (exibir_resultado fmt dados' r cols' c).2)
  /\ (nivel_risco r = "🟢 BAIXO" \/ nivel_risco r = "💚 MUITO BAIXO" ->
      termina_com bloco_prevencao (exibir_resultado fmt dados' r cols' c).2).
Proof.
  intros H. apply predizer_diabetes_inr in H as (p & _ & ->).
  destruct (exibir_resultado_termina fmt dados' (registro threshold contexto p)
              cols' c _ eq_refl) as (He & Hm & Ht).
  split; [exact He|]. split; [exact Hm|].
  revert Ht. cbn [probabilidade nivel_risco registro].
  unfold interpretar_risco.
  destruct (p >=? 0.8)%float eqn:H8;
    [replace (p >=? 0.6)%float with true by (symmetry; F64Facts.float_order)|];
    destruct (p >=? 0.6)%float eqn:H6; destruct (p >=? 0.4)%float eqn:H4;
    destruct (p >=? 0.2)%float eqn:H2; try discriminate;
    cbn [fst]; intros Ht; repeat split; intros Hn;
    first [exact Ht | destruct Hn; discriminate | discriminate].
Qed.

Lemma report_recommendations_follow_tier_witness :
  termina_com bloco_urgente
    (exibir_resultado formato_mudo paciente_C (registro None (Some "triagem") 0.83)
       feature_columns_pima {| stdout := []; mundo := tt |}).2.
Proof.
  refine (proj1 (proj2 (proj2
            (report_recommendations_follow_tier paciente_C (modelo_constante 0.83)
               scaler_identidade feature_columns_pima None (Some "triagem") tt
               (registro None (Some "triagem") 0.83) tt
               formato_mudo paciente_C feature_columns_pima
               {| stdout := []; mundo := tt |} _))) _).
  - apply predizer_constante. reflexivity.
  - left. reflexivity.
Defined.

(** X10 — A positive screening with prevention advice.  Under 'triagem',
    every result whose probability lies in [0.35, 0.4) is labelled
    'DIABETES', has tier BAIXO, and its report ends with the prevention
    block: the label follows the context threshold, the advice does not. *)
Theorem screening_positive_with_prevention_advice {World W}
    dados (modelo : Modelo World) scaler cols threshold w r w'
    fmt dados' cols' (c : Console W) :
  predizer_diabetes dados modelo scaler cols threshold (Some "triagem") w
  = (inr r, w') ->
  (probabilidade r >=? 0.35)%float = true ->
  (probabilidade r <? 0.4)%float = true ->
  predicao r = "DIABETES"
  /\ nivel_risco r = "🟢 BAIXO"
  /\ termina_com bloco_prevencao (exibir_resultado fmt dados' r cols' c).2.
Proof.
  intros H. apply predizer_diabetes_inr in H as (p & _ & ->).
  cbn [probabilidade predicao nivel_risco registro]. intros Hlo Hhi.
  assert (H8 : (p >=? 0.8)%float = false) by F64Facts.float_order.
  assert (H6 : (p >=? 0.6)%float = false) by F64Facts.float_order.
  assert (H4 : (p >=? 0.4)%float = false) by F64Facts.float_order.
  assert (H2 : (p >=? 0.2)%float = true) by F64Facts.float_order.
  rewrite limiar_triagem, Hlo. unfold interpretar_risco. rewrite H8, H6, H4, H2.
  split; [reflexivity|]. split; [reflexivity|].
  apply exibir_resultado_termina. cbn [probabilidade registro].
  rewrite H6, H4. reflexivity.
Qed.

Lemma screening_positive_with_prevention_advice_witness :
  predicao (registro None (Some "triagem") 0.37) = "DIABETES"
  /\ nivel_risco (registro None (Some "triagem") 0.37) = "🟢 BAIXO"
  /\ termina_com bloco_prevencao
       (exibir_resultado formato_mudo paciente_B (registro None (Some "triagem") 0.37)
          feature_columns_pima {| stdout := []; mundo := tt |}).2.
Proof.
  apply (screening_positive_with_prevention_advice paciente_B (modelo_constante 0.37)
           scaler_identidade feature_columns_pima None tt _ tt).
  - apply predizer_constante. reflexivity.
  - reflexivity.
  - reflexivity.
Defined.

(** * Facts about the loader and the comparison of thresholds *)

Section LoaderFacts.
Context {W : Type}.
Implicit Types (c : Console W) (amb : Ambiente W).

Lemma bind_print {A} (s : string) (k : unit -> M (Console W) A) c :
  bind (print s) k c
  = k tt {| stdout := (stdout c ++ [s])%list; mundo := mundo c |}.
Proof. reflexivity. Qed.

Lemma bind_inr {A B} (m : M (Console W) A) (k : A -> M (Console W) B) c a c' :
  m c = (inr a, c') -> bind m k c = k a c'.
Proof. intros H. unfold bind. rewrite H. reflexivity. Qed.

Lemma bind_inl {A B} (m : M (Console W) A) (k : A -> M (Console W) B) c e c' :
  m c = (inl e, c') -> bind m k c = (inl e, c').
Proof. intros H. unfold bind. rewrite H. reflexivity. Qed.

(** X11 — Missing folder.  When the folder 'todos-modelos' does not exist,
    [carregar_sistema_predicao] raises [FileNotFoundError] right after its
    first line of output: the exception is raised outside the [try], so it
    is not turned into [(None, None, None)], and nothing is loaded. *)
Theorem carregar_missing_folder amb c c1 :
  path_exists amb "todos-modelos"
    {| stdout := (stdout c ++ ["🔄 Carregando sistema de predição de diabetes..."])%list;
       mundo := mundo c |}
  = (inr false, c1) ->
  carregar_sistema_predicao amb c = (inl (Raised "FileNotFoundError"), c1).
Proof.
  intros Hex. unfold carregar_sistema_predicao. rewrite bind_print.
  unfold bind. rewrite Hex. reflexivity.
Qed.

(** X12 — No [Exception] escapes the loader.  Once the folder exists, an
    exception that leaves [carregar_sistema_predicao] is not an instance of
    [Exception]: every other failure is caught. *)
Theorem carregar_catches_exceptions amb c c1 e c' :
  path_exists amb "todos-modelos"
    {| stdout := (stdout c ++ ["🔄 Carregando sistema de predição de diabetes..."])%list;
       mundo := mundo c |}
  = (inr true, c1) ->
  carregar_sistema_predicao amb c = (inl e, c') ->
  is_Exception amb e = false.
Proof.
  intros Hex. unfold carregar_sistema_predicao. rewrite bind_print.
  unfold bind at 1. rewrite Hex. cbn [negb]. unfold try_except.
  match goal with |- context [match ?m c1 with _ => _ end] => destruct (m c1) as [[e0|a] c2] end.
  - destruct (is_Exception amb e0) eqn:He.
    + rewrite bind_print. unfold ret. discriminate.
    + intros [= <- <-]. exact He.
  - discriminate.
Qed.

(** X13 — A failed load.  Once the folder exists, if loading the model,
    the scaler or the feature names raises an [Exception], the loader
    returns [(None, None, None)] instead of raising, prints the error line
    and attempts none of the remaining loads. *)
Theorem carregar_load_failure amb c c1 e :
  path_exists amb "todos-modelos"
    {| stdout := (stdout c ++ ["🔄 Carregando sistema de predição de diabetes..."])%list;
       mundo := mundo c |}
  = (inr true, c1) ->
  is_Exception amb e = true ->
  let falhou c' :=
    carregar_sistema_predicao amb c
    = (inr None,
       {| stdout := (stdout c' ++ [("❌ Erro ao carregar sistema: " ++ str_exc amb e)%string])%list;
          mundo := mundo c' |}) in
  (forall c2,
      load_modelo amb "todos-modelos/random_forest_model.pkl" c1 = (inl e, c2) ->
      falhou c2)
  /\ (forall m c2 c3,
      load_modelo amb "todos-modelos/random_forest_model.pkl" c1 = (inr m, c2) ->
      load_scaler amb "todos-modelos/scaler.pkl" c2 = (inl e, c3) ->
      falhou c3)
  /\ (forall m c2 s c3 c4,
      load_modelo amb "todos-modelos/random_forest_model.pkl" c1 = (inr m, c2) ->
      load_scaler amb "todos-modelos/scaler.pkl" c2 = (inr s, c3) ->
      load_colunas amb "todos-modelos/feature_columns.pkl" c3 = (inl e, c4) ->
      falhou c4).
Proof.
  intros Hex He falhou. unfold falhou.
  assert (Hstart : forall r,
    try_except
      (let* modelo_rf := load_modelo amb "todos-modelos/random_forest_model.pkl" in
       let* scaler := load_scaler amb "todos-modelos/scaler.pkl" in
       let* feature_columns := load_colunas amb "todos-modelos/feature_columns.pkl" in
       let* _ := print "✅ Sistema carregado com sucesso!" in
       let* _ := print "   📊 Modelo: Random Forest (melhor AUC)" in
       let* _ := print "   🔧 Scaler: StandardScaler configurado" in
       let* _ := print ("   📝 Features: " ++ pretty (length feature_columns)
                        ++ " variáveis") in
       ret (Some (modelo_rf, scaler, feature_columns)))
      (is_Exception amb)
      (fun e =>
         let* _ := print ("❌ Erro ao carregar sistema: " ++ str_exc amb e) in
         ret None) c1 = r ->
    carregar_sistema_predicao amb c = r).
  { intros r <-. unfold carregar_sistema_predicao. rewrite bind_print.
    erewrite bind_inr by exact Hex. reflexivity. }
  split; [|split].
  - intros c2 Hm. apply Hstart. unfold try_except.
    erewrite bind_inl by exact Hm. rewrite He. reflexivity.
  - intros m c2 c3 Hm Hs. apply Hstart. unfold try_except.
    erewrite bind_inr by exact Hm.
    erewrite bind_inl by exact Hs. rewrite He. reflexivity.
  - intros m c2 s c3 c4 Hm Hs Hc. apply Hstart. unfold try_except.
    erewrite bind_inr by exact Hm.
    erewrite bind_inr by exact Hs. erewrite bind_inl by exact Hc.
    rewrite He. reflexivity.
Qed.

Lemma carregar_ok amb c c1 m c2 s c3 cols c4 :
  path_exists amb "todos-modelos"
    {| stdout := (stdout c ++ ["🔄 Carregando sistema de predição de diabetes..."])%list;
       mundo := mundo c |}
  = (inr true, c1) ->
  load_modelo amb "todos-modelos/random_forest_model.pkl" c1 = (inr m, c2) ->
  load_scaler amb "todos-modelos/scaler.pkl" c2 = (inr s, c3) ->
  load_colunas amb "todos-modelos/feature_columns.pkl" c3 = (inr cols, c4) ->
  exists c5, carregar_sistema_predicao amb c = (inr (Some (m, s, cols)), c5)
             /\ mundo c5 = mundo c4.
Proof.
  intros Hex Hm Hs Hc. unfold carregar_sistema_predicao.
  rewrite bind_print. erewrite bind_inr by exact Hex. cbn [negb]. unfold try_except.
  erewrite bind_inr by exact Hm. erewrite bind_inr by exact Hs.
  erewrite bind_inr by exact Hc. rewrite !bind_print. unfold ret.
  eexists. split; reflexivity.
Qed.

(** X14 — [comparar_thresholds] after a failed load.  When the loader
    returns [(None, None, None)] the function returns at once, without
    output of its own and without any prediction; when the loader raises,
    the exception leaves [comparar_thresholds] as it is. *)
Theorem comparar_stops_after_failed_load amb fmt c :
  let c1 := {| stdout := (stdout c ++ [(NL ++ "🔄 DEMONSTRAÇÃO: IMPACTO DOS THRESHOLDS")%string;
                                       repetir "=" 60])%list;
               mundo := mundo c |} in
  (forall c2, carregar_sistema_predicao amb c1 = (inr None, c2) ->
              comparar_thresholds amb fmt c = (inr tt, c2))
  /\ (forall e c2, carregar_sistema_predicao amb c1 = (inl e, c2) ->
                   comparar_thresholds amb fmt c = (inl e, c2)).
Proof.
  intros c1.
  assert (Hc1 : forall A (k : unit -> M (Console W) A),
             (let* _ := print (NL ++ "🔄 DEMONSTRAÇÃO: IMPACTO DOS THRESHOLDS") in
              let* _ := print (repetir "=" 60) in k tt) c = k tt c1).
  { intros A k. rewrite !bind_print. cbn [stdout mundo].
    unfold c1. rewrite <- app_assoc. reflexivity. }
  split.
  - intros c2 H. unfold comparar_thresholds.
    rewrite (Hc1 _ (fun _ => bind _ _)). unfold bind. rewrite H. reflexivity.
  - intros e c2 H. unfold comparar_thresholds.
    rewrite (Hc1 _ (fun _ => bind _ _)). unfold bind. rewrite H. reflexivity.
Qed.

Lemma probabilidade_de_pure_eq dados (modelo : Modelo (Console W)) scaler cols c0 :
  pure_call (transform scaler) -> pure_call (predict_proba modelo) ->
  forall c, probabilidade_de dados modelo scaler cols c
            = ((probabilidade_de dados modelo scaler cols c0).1, c).
Proof.
  intros Hs Hm c.
  destruct (probabilidade_de_pure dados modelo scaler cols Hs Hm c c0) as [H1 H2].
  rewrite <- H1. rewrite (surjective_pairing (probabilidade_de dados modelo scaler cols c)) at 1.
  f_equal. exact H2.
Qed.

(** X15 — The table of [comparar_thresholds].  With a loaded system whose
    scaler and model are pure, either the first prediction fails and its
    exception leaves the function, or the three rows of the table are
    computed from one and the same probability, under the thresholds of
    'triagem', 'consulta_medica' and 'preventiva' in this order, and a
    'DIABETES' in a row implies 'DIABETES' in every row above it. *)
Theorem comparar_table amb fmt c modelo scaler cols c2 :
  carregar_sistema_predicao amb
    {| stdout := (stdout c ++ [(NL ++ "🔄 DEMONSTRAÇÃO: IMPACTO DOS THRESHOLDS")%string;
                               repetir "=" 60])%list;
       mundo := mundo c |}
  = (inr (Some (modelo, scaler, cols)), c2) ->
  pure_call (transform scaler) -> pure_call (predict_proba modelo) ->
  match (probabilidade_de dados_limitrofe modelo scaler cols c2).1 with
  | inl e =>
      exists c3, comparar_thresholds amb fmt c = (inl e, c3) /\ mundo c3 = mundo c2
  | inr p =>
      let r_tri := registro None (Some "triagem") p in
      let r_con := registro None (Some "consulta_medica") p in
      let r_pre := registro None (Some "preventiva") p in
      (exists antes depois,
          comparar_thresholds amb fmt c
          = (inr tt,
             {| stdout :=
                  (stdout c2 ++ antes
                   ++ [linha_tabela fmt "Triagem Populacional" r_tri;
                       linha_tabela fmt "Consulta Médica" r_con;
                       linha_tabela fmt "Medicina Preventiva" r_pre]
                   ++ depois)%list;
                mundo := mundo c2 |}))
      /\ (predicao r_pre = "DIABETES" -> predicao r_con = "DIABETES")
      /\ (predicao r_con = "DIABETES" -> predicao r_tri = "DIABETES")
  end.
Proof.
  intros Hload Hs Hm.
  pose proof (probabilidade_de_pure_eq dados_limitrofe modelo scaler cols c2 Hs Hm) as Hp.
  assert (Hstart : forall r,
    (let* sistema := carregar_sistema_predicao amb in
     match sistema with
     | None => ret tt
     | Some (modelo, scaler, feature_columns) => r modelo scaler feature_columns
     end)
      {| stdout := (stdout c ++ [(NL ++ "🔄 DEMONSTRAÇÃO: IMPACTO DOS THRESHOLDS")%string;
                                 repetir "=" 60])%list;
         mundo := mundo c |}
    = r modelo scaler cols c2).
  { intros r. erewrite bind_inr by exact Hload. reflexivity. }
  destruct (probabilidade_de dados_limitrofe modelo scaler cols c2).1 as [e|p] eqn:Ho.
  - eexists. unfold comparar_thresholds. rewrite !bind_print. cbn [stdout mundo].
    rewrite <- app_assoc. cbn [app].
    rewrite (Hstart (fun modelo scaler feature_columns => bind _ _)).
    rewrite !bind_print. cbn [for_ultimo]. fold dados_limitrofe.
    erewrite bind_inl; [split; [reflexivity|]|].
    2:{ erewrite bind_inl; [reflexivity|]. erewrite bind_inl; [reflexivity|].
        rewrite predizer_diabetes_split, Hp. reflexivity. }
    reflexivity.
  - assert (Hpred : forall ctx (c' : Console W),
               predizer_diabetes dados_limitrofe modelo scaler cols None (Some ctx) c'
               = (inr (registro None (Some ctx) p), c')).
    { intros ctx c'. rewrite predizer_diabetes_split, Hp. reflexivity. }
    cbn zeta. split; [|split].
    + refine (ex_intro _ [_; _; _; _; _; _] (ex_intro _ [_; _; _; _; _] _)).
      unfold comparar_thresholds. rewrite !bind_print. cbn [stdout mundo].
      rewrite <- app_assoc. cbn [app].
      rewrite (Hstart (fun modelo scaler feature_columns => bind _ _)).
      rewrite !bind_print. cbn [for_ultimo]. fold dados_limitrofe.
      assert (Hrow : forall ctx nome (c' : Console W),
                 (let* resultado :=
                    predizer_diabetes dados_limitrofe modelo scaler cols None (Some ctx) in
                  let* _ := print (linha_tabela fmt nome resultado) in
                  ret resultado) c'
                 = (inr (registro None (Some ctx) p),
                    {| stdout := (stdout c' ++ [linha_tabela fmt nome
                                                 (registro None (Some ctx) p)])%list;
                       mundo := mundo c' |})).
      { intros ctx nome c'. erewrite bind_inr by apply Hpred. reflexivity. }
      erewrite bind_inr.
      2:{ erewrite bind_inr by apply Hrow. erewrite bind_inr by apply Hrow.
          erewrite bind_inr by apply Hrow. reflexivity. }
      cbn beta iota. cbn [stdout mundo].
      repeat (rewrite bind_print; cbn [stdout mundo]). unfold print. cbn [stdout mundo probabilidade registro].
      rewrite <- !app_assoc. cbn [app]. reflexivity.
    + cbn [predicao registro]. rewrite limiar_preventiva, limiar_consulta_medica.
      destruct (p >=? 0.60)%float eqn:H6; [intros _|discriminate].
      replace (p >=? 0.45)%float with true by (symmetry; F64Facts.float_order).
      reflexivity.
    + cbn [predicao registro]. rewrite limiar_triagem, limiar_consulta_medica.
      destruct (p >=? 0.45)%float eqn:H6; [intros _|discriminate].
      replace (p >=? 0.35)%float with true by (symmetry; F64Facts.float_order).
      reflexivity.
Qed.
End LoaderFacts.

Lemma carregar_missing_folder_witness :
  carregar_sistema_predicao (ambiente_de false None 0.5) {| stdout := []; mundo := tt |}
  = (inl (Raised "FileNotFoundError"),
     {| stdout := ["🔄 Carregando sistema de predição de diabetes..."]; mundo := tt |}).
Proof.
  apply (carregar_missing_folder (ambiente_de false None 0.5)
           {| stdout := []; mundo := tt |}).
  reflexivity.
Defined.

Lemma carregar_catches_exceptions_witness :
  is_Exception (ambiente_de (W := unit) true (Some (Raised "KeyboardInterrupt")) 0.5)
    (Raised "KeyboardInterrupt") = false.
Proof.
  apply (carregar_catches_exceptions
           (ambiente_de true (Some (Raised "KeyboardInterrupt")) 0.5)
           {| stdout := []; mundo := tt |}
           {| stdout := ["🔄 Carregando sistema de predição de diabetes..."]; mundo := tt |}
           (Raised "KeyboardInterrupt")
           {| stdout := ["🔄 Carregando sistema de predição de diabetes..."]; mundo := tt |}).
  - reflexivity.
  - reflexivity.
Defined.

Lemma carregar_load_failure_witness :
  carregar_sistema_predicao (ambiente_de true (Some (Raised "EOFError")) 0.5)
    {| stdout := []; mundo := tt |}
  = (inr None,
     {| stdout := ["🔄 Carregando sistema de predição de diabetes...";
                   "❌ Erro ao carregar sistema: "];
        mundo := tt |}).
Proof.
  refine (proj1 (carregar_load_failure
                   (ambiente_de true (Some (Raised "EOFError")) 0.5)
                   {| stdout := []; mundo := tt |}
                   {| stdout := ["🔄 Carregando sistema de predição de diabetes..."];
                      mundo := tt |}
                   (Raised "EOFError") eq_refl eq_refl)
            {| stdout := ["🔄 Carregando sistema de predição de diabetes..."];
               mundo := tt |} eq_refl).
Defined.

Lemma comparar_stops_after_failed_load_witness :
  (comparar_thresholds (ambiente_de true (Some (Raised "EOFError")) 0.5) formato_mudo
     {| stdout := []; mundo := tt |}).1
  = inr tt.
Proof.
  rewrite (proj1 (comparar_stops_after_failed_load
                    (ambiente_de true (Some (Raised "EOFError")) 0.5) formato_mudo
                    {| stdout := []; mundo := tt |}) _ eq_refl).
  reflexivity.
Defined.

Lemma comparar_table_witness :
  exists antes depois,
    comparar_thresholds (ambiente_de true None 0.5) formato_mudo
      {| stdout := []; mundo := tt |}
    = (inr tt,
       {| stdout :=
            (antes
             ++ [linha_tabela formato_mudo "Triagem Populacional"
                   (registro None (Some "triagem") 0.5);
                 linha_tabela formato_mudo "Consulta Médica"
                   (registro None (Some "consulta_medica") 0.5);
                 linha_tabela formato_mudo "Medicina Preventiva"
                   (registro None (Some "preventiva") 0.5)]
             ++ depois)%list;
          mundo := tt |}).
Proof.
  pose proof (comparar_table (ambiente_de true None 0.5) formato_mudo
                {| stdout := []; mundo := tt |}
                (modelo_constante 0.5) scaler_identidade feature_columns_pima _
                eq_refl pure_scaler_identidade (pure_modelo_constante 0.5)) as H.
  destruct (proj1 H) as (antes & depois & Hrun).
  eexists _, depois. rewrite Hrun. cbn [stdout].
  rewrite app_assoc. reflexivity.
Defined.

(** * Facts about the interactive mode and the clinical demonstration *)

Section DemoFacts.
Context {W : Type}.
Implicit Types (c : Console W) (amb : Ambiente W).

(** [menu_interativo] runs its [try] block under the two [except]
    clauses. *)
Lemma menu_interativo_try amb (term : Terminal W) fmt :
  menu_interativo amb term fmt
  = (let* _ := print (NL ++ "🎮 MODO INTERATIVO - TESTE SEU PRÓPRIO CASO") in
     let* _ := print (repetir "=" 50) in
     let* sistema := carregar_sistema_predicao amb in
     match sistema with
     | None => ret tt
     | Some (modelo, scaler, feature_columns) =>
         try_except (menu_bloco_try term fmt modelo scaler feature_columns)
           (fun e => is_KeyboardInterrupt term e || is_Exception amb e)
           (fun e =>
              if is_KeyboardInterrupt term e
              then print (NL ++ NL ++ "👋 Saindo do modo interativo...")
              else
                let* _ := print (NL ++ "❌ Erro na entrada de dados: "
                                 ++ str_exc amb e) in
                print "Certifique-se de inserir valores numéricos válidos.")
     end).
Proof. reflexivity. Qed.

Lemma bind_lift {A B} (r : exception + A) (k : A -> M (Console W) B) c :
  (let* x := lift r in k x) c
  = match r with inl e => (inl e, c) | inr a => k a c end.
Proof. unfold bind, lift. destruct r; reflexivity. Qed.

(** What [contextos_map.get(num, 'consulta_medica')] selects. *)
Lemma contextos_map_get (num : string) :
  let contexto := default "consulta_medica" (contextos_map !! num) in
  (num = "1" -> contexto = "triagem")
  /\ (num = "2" -> contexto = "consulta_medica")
  /\ (num = "3" -> contexto = "preventiva")
  /\ (num <> "1" -> num <> "2" -> num <> "3" -> contexto = "consulta_medica").
Proof.
  cbn zeta. unfold contextos_map.
  destruct (decide (num = "1")) as [->|N1].
  { rewrite lookup_insert_eq. repeat split; congruence. }
  rewrite lookup_insert_ne by congruence.
  destruct (decide (num = "2")) as [->|N2].
  { rewrite lookup_insert_eq. repeat split; congruence. }
  rewrite lookup_insert_ne by congruence.
  destruct (decide (num = "3")) as [->|N3].
  { rewrite lookup_insert_eq. repeat split; congruence. }
  rewrite lookup_insert_ne by congruence. rewrite lookup_empty.
  repeat split; congruence.
Qed.

(** X16 — The two [except] clauses of the interactive mode.  Once the
    system is loaded, an exception [e] raised anywhere in the [try] block
    (reading, converting, predicting, reporting) is turned into a message
    after what the block had printed: a [KeyboardInterrupt] into the
    farewell line, any other [Exception] into the error line with [str(e)]
    and the hint line, and the function then returns normally; only an
    exception that is neither leaves [menu_interativo].  So no
    [KeyboardInterrupt] and no [Exception] ever leaves it. *)
Theorem menu_catches_exceptions amb (term : Terminal W) fmt c modelo scaler cols c2 e c3 :
  carregar_sistema_predicao amb
    {| stdout := (stdout c ++ [(NL ++ "🎮 MODO INTERATIVO - TESTE SEU PRÓPRIO CASO")%string;
                               repetir "=" 50])%list;
       mundo := mundo c |}
  = (inr (Some (modelo, scaler, cols)), c2) ->
  menu_bloco_try term fmt modelo scaler cols c2 = (inl e, c3) ->
  menu_interativo amb term fmt c
  = (if is_KeyboardInterrupt term e then
       (inr tt,
        {| stdout := (stdout c3
                      ++ [(NL ++ NL ++ "👋 Saindo do modo interativo...")%string])%list;
           mundo := mundo c3 |})
     else if is_Exception amb e then
       (inr tt,
        {| stdout := (stdout c3
                      ++ [(NL ++ "❌ Erro na entrada de dados: " ++ str_exc amb e)%string;
                          "Certifique-se de inserir valores numéricos válidos."])%list;
           mundo := mundo c3 |})
     else (inl e, c3))
  /\ (forall e' c', menu_interativo amb term fmt c = (inl e', c') ->
        is_KeyboardInterrupt term e' = false /\ is_Exception amb e' = false).
Proof.
  intros Hload Hbloco.
  assert (Hrun : menu_interativo amb term fmt c
                 = try_except (menu_bloco_try term fmt modelo scaler cols)
                     (fun e => is_KeyboardInterrupt term e || is_Exception amb e)
                     (fun e =>
                        if is_KeyboardInterrupt term e
                        then print (NL ++ NL ++ "👋 Saindo do modo interativo...")
                        else
                          let* _ := print (NL ++ "❌ Erro na entrada de dados: "
                                           ++ str_exc amb e) in
                          print "Certifique-se de inserir valores numéricos válidos.")
                     c2).
  { rewrite menu_interativo_try. rewrite !bind_print. cbn [stdout mundo].
    rewrite <- app_assoc. cbn [app]. erewrite bind_inr by exact Hload. reflexivity. }
  rewrite Hrun. unfold try_except. rewrite Hbloco.
  destruct (is_KeyboardInterrupt term e) eqn:Hk; cbn [orb].
  - split; [reflexivity|]. intros e' c'. discriminate.
  - destruct (is_Exception amb e) eqn:He.
    + rewrite bind_print. cbn [stdout mundo]. unfold print. cbn [stdout mundo].
      rewrite <- app_assoc. split; [reflexivity|]. intros e' c'. discriminate.
    + split; [reflexivity|]. intros e' c' [= <- <-]. split; assumption.
Qed.

(** X17 — The choice of context in the interactive mode.  With a loaded
    system whose scaler and model are pure, a terminal that answers every
    prompt and answers that convert to numbers, [menu_interativo] reports
    the prediction for the eight numbers under the context selected by the
    answer to the last prompt: '1', '2' and '3' select 'triagem',
    'consulta_medica' and 'preventiva' with the thresholds 0.35, 0.45 and
    0.60 that the menu announces, and any other answer selects
    'consulta_medica' with 0.45. *)
Theorem menu_context_choice amb (term : Terminal W) fmt c modelo scaler cols c2
    (resposta : string -> string) v1 v2 v3 v4 v5 v6 v7 v8 p :
  carregar_sistema_predicao amb
    {| stdout := (stdout c ++ [(NL ++ "🎮 MODO INTERATIVO - TESTE SEU PRÓPRIO CASO")%string;
                               repetir "=" 50])%list;
       mundo := mundo c |}
  = (inr (Some (modelo, scaler, cols)), c2) ->
  (forall prompt c', input term prompt c' = (inr (resposta prompt), c')) ->
  to_int term (resposta "Número de gestações (0-17): ") = inr v1 ->
  to_float term (resposta "Glicemia em jejum (mg/dL, ex: 110): ") = inr v2 ->
  to_float term (resposta "Pressão arterial diastólica (mmHg, ex: 80): ") = inr v3 ->
  to_float term (resposta "Espessura da pele tricipital (mm, ex: 25): ") = inr v4 ->
  to_float term (resposta "Insulina sérica (mu U/ml, ex: 100): ") = inr v5 ->
  to_float term (resposta "IMC (kg/m², ex: 28.5): ") = inr v6 ->
  to_float term (resposta "Função de herança genética (0.1-2.5, ex: 0.5): ") = inr v7 ->
  to_int term (resposta "Idade (anos, ex: 35): ") = inr v8 ->
  pure_call (transform scaler) -> pure_call (predict_proba modelo) ->
  (probabilidade_de [v1; v2; v3; v4; v5; v6; v7; v8] modelo scaler cols c2).1 = inr p ->
  exists ctx c4,
    menu_interativo amb term fmt c
    = exibir_resultado fmt [v1; v2; v3; v4; v5; v6; v7; v8]
        (registro None (Some ctx) p) cols c4
    /\ mundo c4 = mundo c2
    /\ (resposta "Escolha (1/2/3): " = "1" ->
        ctx = "triagem"
        /\ threshold_usado (registro None (Some ctx) p) = 0.35%float)
    /\ (resposta "Escolha (1/2/3): " = "2" ->
        ctx = "consulta_medica"
        /\ threshold_usado (registro None (Some ctx) p) = 0.45%float)
    /\ (resposta "Escolha (1/2/3): " = "3" ->
        ctx = "preventiva"
        /\ threshold_usado (registro None (Some ctx) p) = 0.60%float)
    /\ (resposta "Escolha (1/2/3): " <> "1" -> resposta "Escolha (1/2/3): " <> "2" ->
        resposta "Escolha (1/2/3): " <> "3" ->
        ctx = "consulta_medica"
        /\ threshold_usado (registro None (Some ctx) p) = 0.45%float).
Proof.
  intros Hload Hin H1 H2 H3 H4 H5 H6 H7 H8 Hs Hm Hp.
  assert (Hpred : forall ctx (c' : Console W),
             predizer_diabetes [v1; v2; v3; v4; v5; v6; v7; v8] modelo scaler cols
               None ctx c'
             = (inr (registro None ctx p), c')).
  { intros ctx c'. rewrite predizer_diabetes_split.
    rewrite (probabilidade_de_pure_eq _ modelo scaler cols c2 Hs Hm c'), Hp.
    reflexivity. }
  exists (default "consulta_medica" (contextos_map !! resposta "Escolha (1/2/3): ")).
  eexists. split.
  - rewrite menu_interativo_try. rewrite !bind_print. cbn [stdout mundo].
    rewrite <- app_assoc. cbn [app]. erewrite bind_inr by exact Hload.
    unfold try_except, menu_bloco_try.
    rewrite bind_print. cbn [stdout mundo].
    erewrite bind_inr by apply Hin. rewrite bind_lift, H1.
    erewrite bind_inr by apply Hin. rewrite bind_lift, H2.
    erewrite bind_inr by apply Hin. rewrite bind_lift, H3.
    erewrite bind_inr by apply Hin. rewrite bind_lift, H4.
    erewrite bind_inr by apply Hin. rewrite bind_lift, H5.
    erewrite bind_inr by apply Hin. rewrite bind_lift, H6.
    erewrite bind_inr by apply Hin. rewrite bind_lift, H7.
    erewrite bind_inr by apply Hin. rewrite bind_lift, H8.
    repeat (rewrite bind_print; cbn [stdout mundo]).
    erewrite bind_inr by apply Hin. cbn zeta.
    erewrite bind_inr by apply Hpred.
    match goal with
    | |- match exibir_resultado ?f ?d ?r ?k ?st with _ => _ end = _ =>
        destruct (exibir_resultado_imprime (W := W) f d r k) as [corpo Himp];
        transitivity (exibir_resultado f d r k st);
        [rewrite (Himp st); reflexivity|reflexivity]
    end.
  - cbn [mundo]. split; [reflexivity|].
    cbn [threshold_usado registro].
    destruct (contextos_map_get (resposta "Escolha (1/2/3): ")) as (G1 & G2 & G3 & G4).
    cbn zeta in G1, G2, G3, G4.
    split; [intros E; rewrite (G1 E); split; [reflexivity|apply limiar_triagem]|].
    split; [intros E; rewrite (G2 E); split; [reflexivity|apply limiar_consulta_medica]|].
    split; [intros E; rewrite (G3 E); split; [reflexivity|apply limiar_preventiva]|].
    intros N1 N2 N3. rewrite (G4 N1 N2 N3). split; [reflexivity|apply limiar_consulta_medica].
Qed.

(** X18 — A system with the wrong number of feature names.  If the loaded
    list of names does not have 8 entries, [demonstracao_casos_clinicos]
    fails with [SchemaError] at its first case, whatever the scaler and the
    model are, and the exception leaves the function. *)
Theorem demonstracao_schema_error amb fmt c modelo scaler cols c2 :
  carregar_sistema_predicao amb
    {| stdout := (stdout c ++ [(NL ++ "🎯 DEMONSTRAÇÃO: CASOS CLÍNICOS VARIADOS")%string;
                               repetir "=" 80])%list;
       mundo := mundo c |}
  = (inr (Some (modelo, scaler, cols)), c2) ->
  length cols <> 8%nat ->
  exists c3, demonstracao_casos_clinicos amb fmt c = (inl SchemaError, c3)
             /\ mundo c3 = mundo c2.
Proof.
  intros Hload Hlen.
  assert (Hschema : forall dados ctx (c' : Console W),
             length dados = 8%nat ->
             predizer_diabetes dados modelo scaler cols None ctx c'
             = (inl SchemaError, c')).
  { intros dados ctx c' Hd. rewrite predizer_diabetes_split.
    unfold probabilidade_de, bind, lift, pd_DataFrame. cbn [forallb].
    rewrite Hd. replace (8 =? length cols)%nat with false; [reflexivity|].
    symmetry. apply Nat.eqb_neq. congruence. }
  eexists. unfold demonstracao_casos_clinicos. rewrite !bind_print. cbn [stdout mundo].
  rewrite <- app_assoc. cbn [app]. erewrite bind_inr by exact Hload.
  unfold casos_clinicos. cbn [for_each zip_with seq length].
  unfold bind, print. rewrite Hschema by reflexivity.
  split; reflexivity.
Qed.

(** X19 — The detailed analysis repeats case 2.  With a loaded system whose
    scaler and model are pure and whose predictions succeed,
    [demonstracao_casos_clinicos] ends with the report of exactly the result
    whose summary it printed for case 2 (patient B under 'consulta_medica'). *)
Theorem demonstracao_detail_matches_summary amb fmt c modelo scaler cols c2 :
  carregar_sistema_predicao amb
    {| stdout := (stdout c ++ [(NL ++ "🎯 DEMONSTRAÇÃO: CASOS CLÍNICOS VARIADOS")%string;
                               repetir "=" 80])%list;
       mundo := mundo c |}
  = (inr (Some (modelo, scaler, cols)), c2) ->
  pure_call (transform scaler) -> pure_call (predict_proba modelo) ->
  (forall caso, In caso casos_clinicos ->
     exists p, (probabilidade_de (caso_dados caso) modelo scaler cols c2).1 = inr p) ->
  exists p c5 antes meio,
    (probabilidade_de paciente_B modelo scaler cols c2).1 = inr p
    /\ demonstracao_casos_clinicos amb fmt c
       = exibir_resultado fmt paciente_B (registro None (Some "consulta_medica") p)
           cols c5
    /\ stdout c5
       = (stdout c2 ++ antes
          ++ [linha_resumo fmt (registro None (Some "consulta_medica") p)]
          ++ meio)%list
    /\ mundo c5 = mundo c2.
Proof.
  intros Hload Hs Hm Hall.
  assert (Hpred : forall caso, In caso casos_clinicos ->
             exists p, (probabilidade_de (caso_dados caso) modelo scaler cols c2).1 = inr p
                       /\ forall ctx (c' : Console W),
                 predizer_diabetes (caso_dados caso) modelo scaler cols None ctx c'
                 = (inr (registro None ctx p), c')).
  { intros caso Hin. destruct (Hall caso Hin) as [p Hp]. exists p. split; [exact Hp|].
    intros ctx c'. rewrite predizer_diabetes_split.
    rewrite (probabilidade_de_pure_eq _ modelo scaler cols c2 Hs Hm c'), Hp.
    reflexivity. }
  unfold casos_clinicos in Hpred.
  destruct (Hpred _ (or_introl eq_refl)) as (pA & _ & HA).
  destruct (Hpred _ (or_intror (or_introl eq_refl))) as (pB & HpB & HB).
  destruct (Hpred _ (or_intror (or_intror (or_introl eq_refl)))) as (pC & _ & HC).
  destruct (Hpred _ (or_intror (or_intror (or_intror (or_introl eq_refl)))))
    as (pD & _ & HD).
  cbn [caso_dados] in HA, HB, HC, HD, HpB.
  exists pB.
  refine (ex_intro _ _ (ex_intro _ [_; _; _; _; _; _]
            (ex_intro _ [_; _; _; _; _; _; _; _; _; _] _))).
  split; [exact HpB|].
  unfold demonstracao_casos_clinicos. rewrite !bind_print. cbn [stdout mundo].
  rewrite <- app_assoc. cbn [app]. erewrite bind_inr by exact Hload.
  unfold casos_clinicos.
  cbn [for_each zip_with seq length lookup list_lookup].
  assert (Hcase : forall (i : nat) caso p,
             (forall ctx (c' : Console W),
                 predizer_diabetes (caso_dados caso) modelo scaler cols None ctx c'
                 = (inr (registro None ctx p), c')) ->
             forall c' : Console W,
               (let* _ := print (NL ++ "📋 CASO " ++ pretty i ++ ": " ++ caso_nome caso) in
                let* _ := print ("Descrição: " ++ caso_descricao caso) in
                let* resultado :=
                  predizer_diabetes (caso_dados caso) modelo scaler cols
                    None (Some (caso_contexto caso)) in
                let* _ := print (linha_resumo fmt resultado) in
                print ("Contexto: "
                       ++ str_title fmt
                            (replace_char "_"%char " "%char (caso_contexto caso))
                       ++ " (threshold: " ++ fmt_f2 fmt (threshold_usado resultado)
                       ++ ")")) c'
               = (inr tt,
                  {| stdout :=
                       (stdout c'
                        ++ [(NL ++ "📋 CASO " ++ pretty i ++ ": " ++ caso_nome caso)%string;
                            ("Descrição: " ++ caso_descricao caso)%string;
                            linha_resumo fmt (registro None (Some (caso_contexto caso)) p);
                            ("Contexto: "
                             ++ str_title fmt
                                  (replace_char "_"%char " "%char (caso_contexto caso))
                             ++ " (threshold: "
                             ++ fmt_f2 fmt
                                  (threshold_usado
                                     (registro None (Some (caso_contexto caso)) p))
                             ++ ")")%string])%list;
                     mundo := mundo c' |})).
  { intros i caso p Hp c'. rewrite !bind_print. cbn [stdout mundo].
    erewrite bind_inr by apply Hp. rewrite bind_print. unfold print.
    cbn [stdout mundo]. rewrite <- !app_assoc. reflexivity. }
  erewrite bind_inr.
  2:{ erewrite bind_inr by (apply (Hcase _ _ pA); exact HA). cbn [stdout mundo].
      erewrite bind_inr by (apply (Hcase _ _ pB); exact HB). cbn [stdout mundo].
      erewrite bind_inr by (apply (Hcase _ _ pC); exact HC). cbn [stdout mundo].
      erewrite bind_inr by (apply (Hcase _ _ pD); exact HD). cbn [stdout mundo].
      reflexivity. }
  rewrite bind_print. cbn [stdout mundo].
  erewrite bind_inr by apply HB.
  split; [reflexivity|]. cbn [stdout mundo]. split; [|reflexivity].
  rewrite <- !app_assoc. cbn [app]. reflexivity.
Qed.
End DemoFacts.

Lemma menu_catches_exceptions_witness :
  menu_interativo (ambiente_de true None 0.5)
    (terminal_falho (Raised "KeyboardInterrupt")) formato_mudo
    {| stdout := []; mundo := tt |}
  = (inr tt,
     {| stdout :=
          [(NL ++ "🎮 MODO INTERATIVO - TESTE SEU PRÓPRIO CASO")%string; repetir "=" 50;
           "🔄 Carregando sistema de predição de diabetes...";
           "✅ Sistema carregado com sucesso!";
           "   📊 Modelo: Random Forest (melhor AUC)";
           "   🔧 Scaler: StandardScaler configurado";
           "   📝 Features: 8 variáveis";
           (NL ++ "📝 Insira os dados do paciente:")%string;
           (NL ++ NL ++ "👋 Saindo do modo interativo...")%string];
        mundo := tt |}).
Proof.
  destruct (menu_catches_exceptions (ambiente_de true None 0.5)
              (terminal_falho (Raised "KeyboardInterrupt")) formato_mudo
              {| stdout := []; mundo := tt |}
              (modelo_constante 0.5) scaler_identidade feature_columns_pima _
              (Raised "KeyboardInterrupt") _ eq_refl eq_refl) as [Hrun _].
  exact Hrun.
Defined.

Lemma menu_context_choice_witness :
  exists c4,
    menu_interativo (ambiente_de true None 0.37) (terminal_roteiro (fun _ => "1"))
      formato_mudo {| stdout := []; mundo := tt |}
    = exibir_resultado formato_mudo [1; 1; 1; 1; 1; 1; 1; 1]%float
        (registro None (Some "triagem") 0.37) feature_columns_pima c4
    /\ threshold_usado (registro None (Some "triagem") 0.37) = 0.35%float.
Proof.
  destruct (menu_context_choice (ambiente_de true None 0.37)
              (terminal_roteiro (fun _ => "1")) formato_mudo
              {| stdout := []; mundo := tt |}
              (modelo_constante 0.37) scaler_identidade feature_columns_pima _
              (fun _ => "1") 1 1 1 1 1 1 1 1 0.37
              eq_refl (fun _ _ => eq_refl)
              eq_refl eq_refl eq_refl eq_refl eq_refl eq_refl eq_refl eq_refl
              pure_scaler_identidade (pure_modelo_constante 0.37) eq_refl)
    as (ctx & c4 & Hrun & _ & H1 & _).
  destruct (H1 eq_refl) as [-> Ht].
  exists c4. split; [exact Hrun|exact Ht].
Defined.

Lemma demonstracao_schema_error_witness :
  (demonstracao_casos_clinicos (ambiente_sete 0.5) formato_mudo
     {| stdout := []; mundo := tt |}).1
  = inl SchemaError.
Proof.
  destruct (demonstracao_schema_error (ambiente_sete 0.5) formato_mudo
              {| stdout := []; mundo := tt |}
              (modelo_constante 0.5) scaler_identidade (take 7 feature_columns_pima) _
              eq_refl ltac:(cbn; lia)) as (c3 & Hrun & _).
  rewrite Hrun. reflexivity.
Defined.

Lemma demonstracao_detail_matches_summary_witness :
  exists p c5 antes meio,
    (probabilidade_de paciente_B (modelo_constante 0.5) scaler_identidade
       feature_columns_pima
       {| stdout :=
            [(NL ++ "🎯 DEMONSTRAÇÃO: CASOS CLÍNICOS VARIADOS")%string; repetir "=" 80;
             "🔄 Carregando sistema de predição de diabetes...";
             "✅ Sistema carregado com sucesso!";
             "   📊 Modelo: Random Forest (melhor AUC)";
             "   🔧 Scaler: StandardScaler configurado";
             "   📝 Features: 8 variáveis"];
          mundo := tt |}).1 = inr p
    /\ demonstracao_casos_clinicos (ambiente_de true None 0.5) formato_mudo
         {| stdout := []; mundo := tt |}
       = exibir_resultado formato_mudo paciente_B
           (registro None (Some "consulta_medica") p) feature_columns_pima c5
    /\ stdout c5
       = ([(NL ++ "🎯 DEMONSTRAÇÃO: CASOS CLÍNICOS VARIADOS")%string; repetir "=" 80;
           "🔄 Carregando sistema de predição de diabetes...";
           "✅ Sistema carregado com sucesso!";
           "   📊 Modelo: Random Forest (melhor AUC)";
           "   🔧 Scaler: StandardScaler configurado";
           "   📝 Features: 8 variáveis"]
          ++ antes
          ++ [linha_resumo formato_mudo (registro None (Some "consulta_medica") p)]
          ++ meio)%list
    /\ mundo c5 = tt.
Proof.
  apply (demonstracao_detail_matches_summary (ambiente_de true None 0.5) formato_mudo
           {| stdout := []; mundo := tt |}
           (modelo_constante 0.5) scaler_identidade feature_columns_pima _
           eq_refl pure_scaler_identidade (pure_modelo_constante 0.5)).
  intros caso Hin. exists 0.5%float.
  destruct Hin as [<- | [<- | [<- | [<- | []]]]]; reflexivity.
Defined.
